(** * screenshot-mcp: the request handlers of src/index.js

    The handlers are JavaScript that splices the request's arguments into
    the text of a PowerShell script, runs the script, and turns what comes
    back into a response payload.  The development below embeds both
    layers:

    - [Text]    string operations the two languages apply to the arguments;
    - [JS]      the request arguments, JavaScript truthiness and template
                splicing;
    - [PowerShell] quoted literals, values of the injected variables and
                their conversion to Boolean;
    - [Desktop] the window manager the script talks to through user32.dll;
    - [Script]  the three generated scripts (window, all monitors, one
                monitor) as programs of a state-and-exception monad;
    - [Handler] the request boundary: mkdir, try/catch, stderr sniffing;
    - [Request] readings of a request used in the statements;
    - [Paths]   lines 100-110 and 199-220, the output locations;
    - [ListWindows] the list_windows tool;
    - [Samples], [Cases] concrete desktops and requests, and [Reading],
                predicates used in the statements.

    Conventions.  Texts are sequences of UTF-8 bytes; letter case is
    folded on ASCII letters.  A text spliced between quotes
    (['${windowTitle}']) is read by PowerShell as script: a quote
    character in it ends the literal, and the script that is left does
    not parse ([Script.injected], [Script.monitorParses]).  Inside double
    quotes PowerShell also expands dollar signs and backticks; that
    expansion is not followed, and the statements that depend on such a
    text take it without these two characters ([Request.literalTexts],
    [Request.plain]).  The path spliced into the Save lines is taken to
    hold no quote.  Integers are [Z]; the casts to Int32 and Int64 and
    JavaScript's printing of large numbers are written out where the
    scripts use them. *)

From Stdlib Require Import ZArith List String Ascii Bool Lia Permutation Sorted.
From Stdlib Require Import DecimalString HexadecimalString DecimalZ DecimalPos.
From Stdlib Require HexadecimalN HexadecimalPos.
Import ListNotations.
Local Open Scope string_scope.
Local Open Scope Z_scope.

(* ------------------------------------------------------------------ *)
(** ** Text *)

Module Text.

(** [ToLower] on one ASCII letter. *)
Definition lowerChar (c : ascii) : ascii :=
  let n := nat_of_ascii c in
  if ((65 <=? n) && (n <=? 90))%nat then ascii_of_nat (n + 32) else c.

Fixpoint toLower (s : string) : string :=
  match s with
  | EmptyString => EmptyString
  | String c s' => String (lowerChar c) (toLower s')
  end.

(** JavaScript [hay.includes(needle)], .NET [hay.Contains(needle)]. *)
Fixpoint includes (hay needle : string) : bool :=
  match hay with
  | EmptyString => (needle =? "")%string
  | String _ rest => String.prefix needle hay || includes rest needle
  end.

(** PowerShell [-eq] / [-ne] on two strings: ordinal, ignoring case. *)
Definition eqi (s t : string) : bool := (toLower s =? toLower t)%string.

(** PowerShell [s -like pat]: [*] matches any run of characters, [?] any one
    character, every other character itself, ignoring case.  Bracket
    classes are not modelled. *)
Fixpoint like_pat (pat : string) : string -> bool :=
  match pat with
  | EmptyString => fun s => (s =? "")%string
  | String p pat' =>
      if Ascii.eqb p "*" then
        fix star (s : string) : bool :=
          like_pat pat' s
          || match s with
             | EmptyString => false
             | String _ s' => star s'
             end
      else
        fun s =>
          match s with
          | EmptyString => false
          | String c s' =>
              (Ascii.eqb p "?" || Ascii.eqb (lowerChar p) (lowerChar c))
              && like_pat pat' s'
          end
  end.

Definition like (s pat : string) : bool := like_pat pat s.

(** .NET [s.Replace(old, new)]: every occurrence, left to right, case
    sensitive.  [skip] counts the characters of a match still to drop. *)
Fixpoint replace_from (old new : string) (skip : nat) (s : string) : string :=
  match s with
  | EmptyString => EmptyString
  | String c s' =>
      match skip with
      | S k => replace_from old new k s'
      | O =>
          if String.prefix old s
          then new ++ replace_from old new (String.length old - 1) s'
          else String c (replace_from old new 0 s')
      end
  end.

Definition Replace (s old new : string) : string :=
  if (old =? "")%string then s else replace_from old new 0 s.

(** The regular expression [^\d+$] of the monitor script, on ASCII
    digits.  In .NET [$] matches at the end of the text and also before a
    line feed that ends it. *)
Definition isDigit (c : ascii) : bool :=
  let n := nat_of_ascii c in ((48 <=? n) && (n <=? 57))%nat.

Fixpoint allDigits (s : string) : bool :=
  match s with
  | EmptyString => true
  | String c s' => isDigit c && allDigits s'
  end.

(** The text without the line feed that ends it, if one does. *)
Fixpoint chomp (s : string) : string :=
  match s with
  | EmptyString => EmptyString
  | String c EmptyString =>
      if (nat_of_ascii c =? 10)%nat then EmptyString else s
  | String c s' => String c (chomp s')
  end.

Definition matchesDigits (s : string) : bool :=
  negb (chomp s =? "")%string && allDigits (chomp s).

(** Decimal text of an integer, as PowerShell's string expansion prints
    it, and the reading of a plain decimal text. *)
Definition decimal (z : Z) : string := DecimalString.NilZero.string_of_int (Z.to_int z).

Definition readInt (s : string) : option Z :=
  option_map Z.of_int (DecimalString.NilZero.int_of_string s).


(** [Convert.ToInt64(h, 16)]: hexadecimal digits of either case after the
    [0x] prefix, read as a 64-bit pattern; a longer value does not
    convert. *)
Definition readHex (s : string) : option Z :=
  match s with
  | String _ (String _ digits) =>
      match HexadecimalString.NilZero.uint_of_string (toLower digits) with
      | Some u =>
          let v := Z.of_hex_uint u in
          if v <? 2 ^ 63 then Some v
          else if v <? 2 ^ 64 then Some (v - 2 ^ 64)
          else None
      | None => None
      end
  | _ => None
  end.

(** JavaScript [s.trim()], on blanks, tabs and line ends. *)
Definition isBlank (c : ascii) : bool :=
  let n := nat_of_ascii c in
  ((n =? 32) || (n =? 9) || (n =? 10) || (n =? 13))%nat.

Fixpoint trimStart (s : string) : string :=
  match s with
  | EmptyString => EmptyString
  | String c s' => if isBlank c then trimStart s' else s
  end.

Fixpoint trimEnd (s : string) : string :=
  match s with
  | EmptyString => EmptyString
  | String c s' =>
      match trimEnd s' with
      | EmptyString => if isBlank c then EmptyString else String c EmptyString
      | t => String c t
      end
  end.

Definition trim (s : string) : string := trimEnd (trimStart s).

(** The casts [[int]'...'] and [[int64]'...']: blanks around the digits
    are dropped, the value has to fit the type.  They are followed on
    plain decimal texts; any other text counts as not convertible. *)
Definition castInt32 (s : string) : option Z :=
  match readInt (trim s) with
  | Some k => if (- 2 ^ 31 <=? k) && (k <? 2 ^ 31) then Some k else None
  | None => None
  end.

Definition castInt64 (s : string) : option Z :=
  match readInt (trim s) with
  | Some k => if (- 2 ^ 63 <=? k) && (k <? 2 ^ 63) then Some k else None
  | None => None
  end.

(** [parts.join(' ')]. *)
Fixpoint join (sep : string) (parts : list string) : string :=
  match parts with
  | [] => ""
  | [p] => p
  | p :: rest => p ++ sep ++ join sep rest
  end.

End Text.

(* ------------------------------------------------------------------ *)
(** ** JavaScript side: the arguments of a request *)

Module JS.

(** [monitor] is declared as string or number. *)
Inductive MonitorArg : Type :=
| MonitorText (s : string)
| MonitorNumber (n : Z).

(** [request.params.arguments]; [None] is a property that is absent
    ([undefined]).  The two flags are read with [|| false]. *)
Record Arguments : Type := mkArguments {
  filename : option string;
  monitor : option MonitorArg;
  windowTitle : option string;
  processName : option string;
  windowNumber : option Z;
  windowHandle : option string;
  filter : option string;
  allowFocus : bool;
  restoreIfMinimized : bool;
  folder : option string
}.

Definition noArguments : Arguments :=
  mkArguments None None None None None None None false false None.

(** Truthiness of a string and of a number. *)
Definition truthyText (o : option string) : bool :=
  match o with
  | Some s => negb (s =? "")%string
  | None => false
  end.

Definition truthyNumber (o : option Z) : bool :=
  match o with
  | Some k => negb (k =? 0)
  | None => false
  end.

(** [`${x}`] inside a template literal. *)
Definition spliceText (o : option string) : string :=
  match o with
  | Some s => s
  | None => "undefined"
  end.

(** *** How a template prints a number

    An integer below 10^21 in magnitude prints in plain digits.  From
    there on JavaScript prints the shortest digits that still name the
    same double, in exponent form ([1e+21]), and [Infinity] past the
    largest double. *)

(** The double nearest to a positive integer, ties to the even
    mantissa. *)
Definition nearestDouble (n : Z) : Z :=
  let e := Z.log2 n - 52 in
  if e <=? 0 then n
  else
    let q := n / 2 ^ e in
    let r := n mod 2 ^ e in
    let half := 2 ^ (e - 1) in
    let q' := if (half <? r) || ((r =? half) && Z.odd q) then q + 1 else q in
    q' * 2 ^ e.

(** The decimals that round to the double [v] (at least 2^54): from
    [fst] to [snd], the ends included when the mantissa is even. *)
Definition roundsTo (v c : Z) : bool :=
  let e := Z.log2 v - 52 in
  let m := v / 2 ^ e in
  let up := 2 ^ (e - 1) in
  let down := if m =? 2 ^ 52 then 2 ^ (e - 2) else 2 ^ (e - 1) in
  if Z.even m then (v - down <=? c) && (c <=? v + up)
  else (v - down <? c) && (c <? v + up).

Definition digitCount (v : Z) : Z := Z.of_nat (String.length (Text.decimal v)).

(** The decimal of [k] significant digits that rounds to [v], the nearer
    one (the even one on a tie) when there are two. *)
Definition shortestAt (v k : Z) : option Z :=
  let p := 10 ^ (digitCount v - k) in
  let lo := (v / p) * p in
  let hi := lo + p in
  if roundsTo v lo && roundsTo v hi then
    Some (if v - lo <? hi - v then lo
          else if hi - v <? v - lo then hi
          else if Z.even (lo / p) then lo else hi)
  else if roundsTo v lo then Some lo
  else if roundsTo v hi then Some hi
  else None.

Fixpoint shortest (v : Z) (k : Z) (fuel : nat) : Z :=
  match fuel with
  | O => v
  | S fuel' =>
      match shortestAt v k with
      | Some c => c
      | None => shortest v (k + 1) fuel'
      end
  end.

Fixpoint dropZeros (s : string) : string :=
  match s with
  | EmptyString => EmptyString
  | String c s' =>
      match dropZeros s' with
      | EmptyString => if Ascii.eqb c "0" then EmptyString else String c EmptyString
      | t => String c t
      end
  end.

(** [d.ddde+x] from the digits of a positive integer. *)
Definition exponentForm (c : Z) : string :=
  match Text.decimal c with
  | String d rest =>
      String d (match dropZeros rest with
                | EmptyString => EmptyString
                | fraction => "." ++ fraction
                end)
      ++ "e+" ++ Text.decimal (Z.of_nat (String.length rest))
  | EmptyString => "0"
  end.

Definition numberText (n : Z) : string :=
  if Z.abs n <? 10 ^ 21 then Text.decimal n
  else
    let v := nearestDouble (Z.abs n) in
    (if n <? 0 then "-" else "")
    ++ (if 2 ^ 1024 <=? v then "Infinity"
        else exponentForm (shortest v 1 (String.length (Text.decimal v)))).

Definition spliceNumber (o : option Z) : string :=
  match o with
  | Some k => numberText k
  | None => "undefined"
  end.

(** [escPS = (s) => String(s ?? '').replace(/'/g, "''")]. *)
Fixpoint doubleQuotes (s : string) : string :=
  match s with
  | EmptyString => EmptyString
  | String c s' =>
      if Ascii.eqb c "'" then String "'" (String "'" (doubleQuotes s'))
      else String c (doubleQuotes s')
  end.

Definition escPS (o : option string) : string :=
  doubleQuotes (match o with Some s => s | None => "" end).

Definition psFilter (a : Arguments) : string := "'" ++ escPS (filter a) ++ "'".
Definition psWindowTitle (a : Arguments) : string := "'" ++ escPS (windowTitle a) ++ "'".
Definition psProcessName (a : Arguments) : string := "'" ++ escPS (processName a) ++ "'".
Definition psAllowFocus (a : Arguments) : string :=
  if allowFocus a then "'$true'" else "'$false'".
Definition psRestore (a : Arguments) : string :=
  if restoreIfMinimized a then "'$true'" else "'$false'".

(** [const monitor = request.params.arguments?.monitor || 'all']. *)
Definition monitorOrAll (a : Arguments) : MonitorArg :=
  match monitor a with
  | Some (MonitorText s) => if (s =? "")%string then MonitorText "all" else MonitorText s
  | Some (MonitorNumber n) => if n =? 0 then MonitorText "all" else MonitorNumber n
  | None => MonitorText "all"
  end.

Definition spliceMonitor (m : MonitorArg) : string :=
  match m with
  | MonitorText s => s
  | MonitorNumber n => numberText n
  end.

(** [monitor === 'all']. *)
Definition isAll (m : MonitorArg) : bool :=
  match m with
  | MonitorText s => (s =? "all")%string
  | MonitorNumber _ => false
  end.

(** The guard of the window branch,
    [windowTitle || processName || windowNumber || windowHandleArg]. *)
Definition wantsWindow (a : Arguments) : bool :=
  truthyText (windowTitle a) || truthyText (processName a)
  || truthyNumber (windowNumber a) || truthyText (windowHandle a).

End JS.

(* ------------------------------------------------------------------ *)
(** ** PowerShell values *)

Module PowerShell.

Inductive Value : Type :=
| VBool (b : bool)
| VString (s : string).

(** Conversion to Boolean in [if (...)], [-not], [-and]: a string is true
    exactly when it is not empty. *)
Definition IsTrue (v : Value) : bool :=
  match v with
  | VBool b => b
  | VString s => negb (s =? "")%string
  end.

Definition toText (v : Value) : string :=
  match v with
  | VBool true => "True"
  | VBool false => "False"
  | VString s => s
  end.

(** PowerShell reads five characters as a single quote: the apostrophe
    and U+2018, U+2019, U+201A, U+201B, which in UTF-8 are the bytes E2 80
    followed by 98, 99, 9A or 9B.  It reads four as a double quote: the
    ASCII one and U+201C, U+201D, U+201E (E2 80 and 9C, 9D or 9E). *)
Definition curlySingle (c1 c2 c3 : ascii) : bool :=
  ((nat_of_ascii c1 =? 226) && (nat_of_ascii c2 =? 128)
   && (152 <=? nat_of_ascii c3) && (nat_of_ascii c3 <=? 155))%nat.

Definition curlyDouble (c1 c2 c3 : ascii) : bool :=
  ((nat_of_ascii c1 =? 226) && (nat_of_ascii c2 =? 128)
   && (156 <=? nat_of_ascii c3) && (nat_of_ascii c3 <=? 158))%nat.

(** A text as the tokenizer meets it inside single quotes: single quotes
    of either kind, and every other byte. *)
Inductive Glyph : Type :=
| Quote (spelling : string)
| Plain (c : ascii).

Fixpoint glyphs (s : string) : list Glyph :=
  match s with
  | EmptyString => []
  | String c1 r1 =>
      if Ascii.eqb c1 "'" then Quote "'" :: glyphs r1
      else
        match r1 with
        | String c2 (String c3 r3) =>
            if curlySingle c1 c2 c3
            then Quote (String c1 (String c2 (String c3 EmptyString))) :: glyphs r3
            else Plain c1 :: glyphs r1
        | _ => Plain c1 :: glyphs r1
        end
  end.

(** The body of a single-quoted literal: nothing is expanded, a quote
    followed by a quote stands for the second of them, and a quote that
    no quote follows ends the literal. *)
Fixpoint unquoteGlyphs (l : list Glyph) : option string :=
  match l with
  | [] => Some EmptyString
  | Plain c :: rest => option_map (String c) (unquoteGlyphs rest)
  | Quote _ :: Quote q :: rest => option_map (append q) (unquoteGlyphs rest)
  | Quote _ :: _ => None
  end.

Definition unquote (body : string) : option string := unquoteGlyphs (glyphs body).

(** No typographic single quote, and no single quote of either kind. *)
Fixpoint curlyFree (s : string) : bool :=
  match s with
  | EmptyString => true
  | String c1 r1 =>
      match r1 with
      | String c2 (String c3 _) => negb (curlySingle c1 c2 c3)
      | _ => true
      end && curlyFree r1
  end.



(** A double quote of either kind: it ends a double-quoted string. *)
Fixpoint closesDouble (s : string) : bool :=
  match s with
  | EmptyString => false
  | String c1 r1 =>
      Ascii.eqb c1 (ascii_of_nat 34)
      || match r1 with
         | String c2 (String c3 _) => curlyDouble c1 c2 c3
         | _ => false
         end
      || closesDouble r1
  end.

(** Inside double quotes a dollar sign starts an expansion and a
    backtick an escape; a text with neither stands for itself there. *)
Fixpoint expansionFree (s : string) : bool :=
  match s with
  | EmptyString => true
  | String c s' =>
      negb (Ascii.eqb c "$") && negb (Ascii.eqb c "`") && expansionFree s'
  end.

Fixpoint dropClosingQuote (s : string) : option string :=
  match s with
  | EmptyString => None
  | String c EmptyString => if Ascii.eqb c "'" then Some EmptyString else None
  | String c rest => option_map (String c) (dropClosingQuote rest)
  end.

(** The right-hand sides that occur in the "Injected variables" block:
    the automatic variables [$true] and [$false], and quoted literals.
    [None]: the text is not one literal. *)
Definition literal (src : string) : option Value :=
  if (src =? "$true")%string then Some (VBool true)
  else if (src =? "$false")%string then Some (VBool false)
  else
    match src with
    | String q rest =>
        if Ascii.eqb q "'" then
          match dropClosingQuote rest with
          | Some body => option_map VString (unquote body)
          | None => None
          end
        else None
    | EmptyString => None
    end.

(** Printable ASCII other than the two quotes, the dollar sign and the
    backtick: the bytes that stand for themselves wherever a script
    holds a spliced text, and that no comparison of the script skips. *)
Definition plainByte (c : ascii) : bool :=
  let n := nat_of_ascii c in
  ((32 <=? n) && (n <=? 126))%nat
  && negb (Ascii.eqb c "'") && negb (Ascii.eqb c (ascii_of_nat 34))
  && negb (Ascii.eqb c "$") && negb (Ascii.eqb c "`").

Fixpoint plainBytes (s : string) : bool :=
  match s with
  | EmptyString => true
  | String c s' => plainByte c && plainBytes s'
  end.

(** A text spliced between single quotes as it is, ['${x}']. *)
Definition rawText (t : string) : option Value := literal ("'" ++ t ++ "'").

End PowerShell.

(* ------------------------------------------------------------------ *)
(** ** The desktop behind user32.dll and System.Windows.Forms *)

Module Desktop.

(** [public struct RECT { Left; Top; Right; Bottom }]. *)
Record RECT : Type := mkRECT { Left : Z; Top : Z; Right : Z; Bottom : Z }.

(** A top-level window as [EnumWindows] reports it.  [procName] is [None]
    when [Get-Process] cannot query the owner; [frame] is the rectangle of
    the window when it is shown, [parked] the one reported while it is
    minimized. *)
Record Window : Type := mkWindow {
  hWnd : Z;
  visible : bool;
  caption : string;
  procId : Z;
  procName : option string;
  frame : RECT;
  parked : RECT
}.

(** [System.Windows.Forms.Screen]: its [Bounds] and [Primary] flag. *)
Record Screen : Type := mkScreen {
  X : Z; Y : Z; Width : Z; Height : Z;
  Primary : bool
}.

(** How the window manager answers the script's requests.  The script
    throws every one of these answers away ([[void]]). *)
Record Manager : Type := mkManager {
  restoreDelay : Z -> option nat;  (* ms until SW_RESTORE shows; None: never *)
  minimizes : Z -> bool;           (* SW_MINIMIZE is carried out *)
  foregrounds : Z -> bool;         (* SetForegroundWindow is carried out *)
  printWindowOk : Z -> bool;       (* what PrintWindow returns *)
  saveFault : option string        (* the exception of Bitmap.Save, if any *)
}.

Record State : Type := mkState {
  windows : list Window;           (* in EnumWindows order *)
  iconic : list Z;                 (* handles for which IsIconic holds *)
  foreground : Z;                  (* GetForegroundWindow, 0 when none *)
  restoring : option (Z * nat);    (* a posted SW_RESTORE and the ms left *)
  screens : list Screen;           (* Screen.AllScreens, as enumerated *)
  manager : Manager
}.

Definition IsIconic (h : Z) (d : State) : bool := existsb (Z.eqb h) (iconic d).

Definition without (h : Z) (l : list Z) : list Z :=
  filter (fun x => negb (x =? h)) l.

Definition setIconic (l : list Z) (r : option (Z * nat)) (d : State) : State :=
  mkState (windows d) l (foreground d) r (screens d) (manager d).

Definition setForeground (h : Z) (d : State) : State :=
  mkState (windows d) (iconic d) h (restoring d) (screens d) (manager d).

(** [Start-Sleep -Milliseconds ms]: a pending restore may come through. *)
Definition elapse (ms : nat) (d : State) : State :=
  match restoring d with
  | Some (h, due) =>
      if (due <=? ms)%nat then setIconic (without h (iconic d)) None d
      else setIconic (iconic d) (Some (h, (due - ms)%nat)) d
  | None => d
  end.

(** [ShowWindowAsync(h, nCmdShow)] for the two commands the script uses:
    9 (SW_RESTORE) and 6 (SW_MINIMIZE). *)
Definition show (h cmd : Z) (d : State) : State :=
  if cmd =? 9 then
    if IsIconic h d then
      match restoreDelay (manager d) h with
      | Some O => setIconic (without h (iconic d)) None d
      | Some ms => setIconic (iconic d) (Some (h, ms)) d
      | None => d
      end
    else d
  else if cmd =? 6 then
    if minimizes (manager d) h
    then setIconic (h :: without h (iconic d)) None d
    else d
  else d.

(** [SetForegroundWindow(h)]. *)
Definition activate (h : Z) (d : State) : State :=
  if foregrounds (manager d) h then setForeground h d else d.

(** The restore poll as the desktop sees it: up to [rounds] waits of 50 ms,
    ended as soon as the window is no longer iconic. *)
Fixpoint awaitRestore (h : Z) (rounds : nat) (d : State) : State :=
  match rounds with
  | O => d
  | S rounds' =>
      if negb (IsIconic h d) then d else awaitRestore h rounds' (elapse 50 d)
  end.

(** No request of a script creates, closes or moves a window or a screen,
    or changes how the manager answers. *)
Definition sameSetting (d d' : State) : Prop :=
  windows d' = windows d /\ screens d' = screens d /\ manager d' = manager d.

(** [GetWindowRect]: the rectangle of the window as it stands, the zero
    rectangle of [New-Object Win32+RECT] when the handle names no window. *)
Definition GetWindowRect (h : Z) (d : State) : RECT :=
  match find (fun w => hWnd w =? h) (windows d) with
  | Some w => if IsIconic h d then parked w else frame w
  | None => mkRECT 0 0 0 0
  end.

(** The desktop at the moment the script reads the rectangle: after the
    restore request and its poll when the window was minimized. *)
Definition readyToCapture (h : Z) (d : State) : State :=
  if IsIconic h d then awaitRestore h 40 (show h 9 d) else d.

(** [Screen.PrimaryScreen]. *)
Definition PrimaryScreen (d : State) : option Screen :=
  find Primary (screens d).

(** [Sort-Object { $_.Bounds.X }]: ascending, equal keys keep their
    order of arrival. *)
Fixpoint insertByX (s : Screen) (l : list Screen) : list Screen :=
  match l with
  | [] => [s]
  | t :: l' => if X s <=? X t then s :: l else t :: insertByX s l'
  end.

Definition sortByX (l : list Screen) : list Screen :=
  fold_right insertByX [] l.

(** [SystemInformation.VirtualScreen]: the union of all screens, as
    left, top, width, height. *)
Definition VirtualScreen (d : State) : Z * Z * Z * Z :=
  match screens d with
  | [] => (0, 0, 0, 0)
  | s :: rest =>
      let l := fold_right (fun t acc => Z.min (X t) acc) (X s) rest in
      let t := fold_right (fun t acc => Z.min (Y t) acc) (Y s) rest in
      let r := fold_right (fun t acc => Z.max (X t + Width t) acc) (X s + Width s) rest in
      let b := fold_right (fun t acc => Z.max (Y t + Height t) acc) (Y s + Height s) rest in
      (l, t, r - l, b - t)
  end.

End Desktop.

(* ------------------------------------------------------------------ *)
(** ** The generated scripts *)

Module Script.

Import Desktop PowerShell.

(** What a run does to the desktop and the file system, in order.  The
    bitmap a call works on is named by its width and height; [New-Object
    Bitmap] and [Graphics.FromImage] themselves leave no trace, and a
    bitmap that cannot be drawn shows as PrintWindow reporting failure or
    as a fault of Save.  Calls that only read the desktop (EnumWindows,
    IsIconic, GetWindowRect, GetForegroundWindow) are not recorded, nor is
    [SetProcessDpiAwareness(2)], which every script of take_screenshot
    calls first: it changes no window and no file, and its result, which
    the script leaves in the output, is no line of [Write-Host]. *)
Inductive Call : Type :=
| EvShowWindowAsync (h : Z) (nCmdShow : Z)
| EvSetForegroundWindow (h : Z)
| EvPrintWindow (h : Z) (width height : Z) (flags : Z)
| EvCopyFromScreen (x y : Z) (width height : Z)
| EvSave (path : string) (width height : Z).

(** The PowerShell host: desktop, calls made so far, output stream
    ([Write-Host]) and error stream. *)
Record Host : Type := mkHost {
  desk : State;
  calls : list Call;
  out : list string;
  err : list string
}.

Definition boot (d : State) : Host := mkHost d [] [] [].

(** A statement completes or [throw]s; an exception of a .NET call only
    writes to the error stream and the script goes on. *)
Inductive Completion (A : Type) : Type :=
| Normal (a : A)
| Thrown (msg : string).
Arguments Normal {A} a.
Arguments Thrown {A} msg.

Definition PS (A : Type) : Type := Host -> Completion A * Host.

Definition ret {A : Type} (a : A) : PS A := fun h => (Normal a, h).

Definition bind {A B : Type} (m : PS A) (k : A -> PS B) : PS B :=
  fun h =>
    match m h with
    | (Normal a, h') => k a h'
    | (Thrown msg, h') => (Thrown msg, h')
    end.

Definition throw {A : Type} (msg : string) : PS A := fun h => (Thrown msg, h).

Notation "x <- m ;; k" := (bind m (fun x => k))
  (at level 61, m at next level, right associativity).
Notation "m ;; k" := (bind m (fun _ => k))
  (at level 61, right associativity).

Definition when (b : bool) (m : PS unit) : PS unit := if b then m else ret tt.

Definition desktop : PS State := fun h => (Normal (desk h), h).

Definition change (f : State -> State) : PS unit :=
  fun h => (Normal tt, mkHost (f (desk h)) (calls h) (out h) (err h)).

Definition record (c : Call) : PS unit :=
  fun h => (Normal tt, mkHost (desk h) (calls h ++ [c]) (out h) (err h)).

Definition WriteHost (s : string) : PS unit :=
  fun h => (Normal tt, mkHost (desk h) (calls h) (out h ++ [s]) (err h)).

Definition WriteError (s : string) : PS unit :=
  fun h => (Normal tt, mkHost (desk h) (calls h) (out h) (err h ++ [s])).

(** *** The Win32 and GDI+ entry points the scripts use *)

Definition IsIconic (h : Z) : PS bool :=
  d <- desktop ;; ret (Desktop.IsIconic h d).

Definition GetForegroundWindow : PS Z :=
  d <- desktop ;; ret (foreground d).

Definition ShowWindowAsync (h cmd : Z) : PS unit :=
  record (EvShowWindowAsync h cmd) ;; change (show h cmd).

Definition SetForegroundWindow (h : Z) : PS unit :=
  record (EvSetForegroundWindow h) ;; change (activate h).

Definition StartSleep (ms : nat) : PS unit := change (elapse ms).

Definition GetWindowRect (h : Z) : PS RECT :=
  d <- desktop ;; ret (Desktop.GetWindowRect h d).

Definition PrintWindow (h width height flags : Z) : PS bool :=
  record (EvPrintWindow h width height flags) ;;
  d <- desktop ;; ret (printWindowOk (manager d) h).

Definition CopyFromScreen (x y width height : Z) : PS unit :=
  record (EvCopyFromScreen x y width height).

Definition Save (path : string) (width height : Z) : PS unit :=
  d <- desktop ;;
  match saveFault (manager d) with
  | Some e => WriteError e
  | None => record (EvSave path width height)
  end.

(** *** Get-WindowsList *)

Record Listed : Type := mkListed {
  Handle : Z; Title : string; PID : Z; Process : string
}.

Definition listed (flt : string) (w : Window) : list Listed :=
  if visible w then
    if negb (caption w =? "")%string then
      let proc := match procName w with Some n => n | None => "" end in
      if (flt =? "")%string
         || Text.includes (Text.toLower (caption w)) (Text.toLower flt)
         || Text.includes (Text.toLower proc) (Text.toLower flt)
      then [mkListed (hWnd w) (caption w) (procId w) proc]
      else []
    else []
  else [].

(** One run of the callback handed to EnumWindows, on the window [w].
    PowerShell runs a script block called as a delegate in a scope of its
    own: [$arr += $obj] reads the [$arr] of the function and assigns the
    longer array to a variable of that scope, which ends with the run.
    The [$arr] of the function is what it was. *)
Definition callback (flt : string) (arr : list Listed) (w : Window) : list Listed :=
  let local := (arr ++ listed flt w)%list in
  arr.

(** [$arr = @()], the enumeration, [return ,$arr]. *)
Definition GetWindowsList (flt : string) : PS (list Listed) :=
  d <- desktop ;; ret (fold_left (callback flt) (windows d) []).

(** *** Injected variables *)

Record Injected : Type := mkInjected {
  var_psAllowFocus : Value;
  var_psRestore : Value;
  var_psFilter : Value;
  var_psWindowTitle : Value;
  var_psProcessName : Value
}.

(** The handle, the title and the process name are also spliced as they
    are: the handle and the title between single quotes (lines 301, 302,
    310), the process name too (315), the title and the process name
    between double quotes (313, 319).  The script parses when each of
    these is one literal between single quotes and neither the title nor
    the process name holds a double quote. *)
Definition splicesParse (a : JS.Arguments) : bool :=
  match rawText (JS.spliceText (JS.windowHandle a)),
        rawText (JS.spliceText (JS.windowTitle a)),
        rawText (JS.spliceText (JS.processName a)) with
  | Some _, Some _, Some _ =>
      negb (closesDouble (JS.spliceText (JS.windowTitle a)))
      && negb (closesDouble (JS.spliceText (JS.processName a)))
  | _, _, _ => false
  end.

(** The variables of a window script that parses. *)
Definition injected (a : JS.Arguments) : option Injected :=
  if splicesParse a then
    match literal (JS.psAllowFocus a), literal (JS.psRestore a),
          literal (JS.psFilter a), literal (JS.psWindowTitle a),
          literal (JS.psProcessName a) with
    | Some f, Some r, Some flt, Some t, Some p => Some (mkInjected f r flt t p)
    | _, _, _, _, _ => None
    end
  else None.

(** *** The selector chain (if / elseif / elseif / elseif) *)

Inductive Selector : Type := ByHandle | ByNumber | ByTitle | ByProcess.

Definition branch (a : JS.Arguments) : option Selector :=
  let h := JS.spliceText (JS.windowHandle a) in
  let n := JS.spliceNumber (JS.windowNumber a) in
  let t := JS.spliceText (JS.windowTitle a) in
  let p := JS.spliceText (JS.processName a) in
  if negb (Text.eqi h "") && negb (Text.eqi h "undefined") then Some ByHandle
  else if negb (Text.eqi n "") && negb (Text.eqi n "undefined") then Some ByNumber
  else if negb (Text.eqi t "") then Some ByTitle
  else if negb (Text.eqi p "") then Some ByProcess
  else None.

Definition byHandle (h : string) : PS Z :=
  match (if Text.like h "0x*" then Text.readHex h else Text.castInt64 h) with
  | Some v => ret v
  | None =>
      WriteError ("Cannot convert value " ++ h ++ " to type System.Int64.") ;;
      ret 0
  end.

Definition byNumber (n : string) (flt : string) : PS Z :=
  list <- GetWindowsList flt ;;
  let count := Z.of_nat (List.length list) in
  let invalid : PS Z :=
    throw ("Invalid windowNumber: " ++ n ++ ". Available: 1.." ++ Text.decimal count) in
  match Text.castInt32 n with
  | Some k =>
      let idx := k - 1 in
      if (idx <? 0) || (idx >=? count) then invalid
      else
        match nth_error list (Z.to_nat idx) with
        | Some w => ret (Handle w)
        | None => ret 0
        end
  | None =>
      WriteError ("Cannot convert value " ++ n ++ " to type System.Int32.") ;;
      invalid
  end.

Definition byTitle (t : string) (psWindowTitle : Value) (flt : string) : PS Z :=
  list <- GetWindowsList flt ;;
  match find (fun w => Text.like (Title w) ("*" ++ toText psWindowTitle ++ "*")) list with
  | Some w => ret (Handle w)
  | None => throw ("No window found with title containing: " ++ t)
  end.

Definition byProcess (p : string) (psProcessName : Value) (flt : string) : PS Z :=
  list <- GetWindowsList flt ;;
  let search := Text.Replace (toText psProcessName) ".exe" "" in
  match find (fun w => Text.like (Process w) ("*" ++ search ++ "*")) list with
  | Some w => ret (Handle w)
  | None => throw ("No window found for process: " ++ p)
  end.

Definition resolveTarget (a : JS.Arguments) (inj : Injected) : PS Z :=
  let flt := toText (var_psFilter inj) in
  match branch a with
  | Some ByHandle => byHandle (JS.spliceText (JS.windowHandle a))
  | Some ByNumber => byNumber (JS.spliceNumber (JS.windowNumber a)) flt
  | Some ByTitle => byTitle (JS.spliceText (JS.windowTitle a)) (var_psWindowTitle inj) flt
  | Some ByProcess => byProcess (JS.spliceText (JS.processName a)) (var_psProcessName inj) flt
  | None => ret 0
  end.

(** *** Capture of the resolved window *)

Definition pad : Z := 10.

Definition captureBounds (rc : RECT) : Z * Z * Z * Z :=
  let lft := Z.max 0 (Left rc - pad) in
  let top := Z.max 0 (Top rc - pad) in
  let width := (Right rc + pad) - lft in
  let height := (Bottom rc + pad) - top in
  (lft, top, width, height).

(** [for ($i=0; $i -lt 40; $i++) { if (-not IsIconic) { break }; Start-Sleep 50 }] *)
Fixpoint pollRestored (target : Z) (rounds : nat) : PS unit :=
  match rounds with
  | O => ret tt
  | S rounds' =>
      still <- IsIconic target ;;
      if negb still then ret tt
      else StartSleep 50 ;; pollRestored target rounds'
  end.

Definition captureTarget (inj : Injected) (path : string) (target : Z) : PS unit :=
  wasMinimized <- IsIconic target ;;
  when (wasMinimized && negb (IsTrue (var_psRestore inj)))
    (throw "Target window is minimized. Set restoreIfMinimized: true to capture.") ;;
  prevForeground <- GetForegroundWindow ;;
  when (IsTrue (var_psRestore inj) && wasMinimized)
    (ShowWindowAsync target 9 ;; pollRestored target 40) ;;
  rc <- GetWindowRect target ;;
  let '(lft, top, width, height) := captureBounds rc in
  pwOk <- PrintWindow target width height 2 ;;
  (if negb pwOk then
     if IsTrue (var_psAllowFocus inj) then
       SetForegroundWindow target ;;
       StartSleep 200 ;;
       CopyFromScreen lft top width height ;;
       Save path width height ;;
       WriteHost "Window screenshot saved successfully (foreground fallback)"
     else
       throw "Background capture produced an invalid image for this app. Retry with allowFocus: true."
   else
     Save path width height ;;
     WriteHost "Window screenshot saved successfully (background)") ;;
  when wasMinimized (ShowWindowAsync target 6) ;;
  when (negb (prevForeground =? 0)) (SetForegroundWindow prevForeground).

Definition windowScript (a : JS.Arguments) (path : string) : PS unit :=
  match injected a with
  | None => throw "ParserError"
  | Some inj =>
      target <- resolveTarget a inj ;;
      when (target =? 0) (throw "No target window resolved") ;;
      captureTarget inj path target
  end.

(** *** Monitor scripts *)

Definition allMonitorsScript (path : string) : PS unit :=
  d <- desktop ;;
  let '(lft, top, width, height) := VirtualScreen d in
  CopyFromScreen lft top width height ;;
  Save path width height ;;
  WriteHost "Screenshot saved successfully".

Definition selectMonitor (monitor : string) : PS (option Screen) :=
  d <- desktop ;;
  let sorted := sortByX (screens d) in
  let count := Z.of_nat (List.length sorted) in
  let notFound : PS (option Screen) :=
    throw ("Monitor " ++ monitor ++ " not found. Available monitors: 1 to "
           ++ Text.decimal count) in
  if Text.eqi monitor "primary" then ret (PrimaryScreen d)
  else if Text.matchesDigits monitor then
    match Text.castInt32 monitor with
    | Some n =>
        let i := n - 1 in
        if (i >=? 0) && (i <? count) then ret (nth_error sorted (Z.to_nat i))
        else notFound
    | None =>
        WriteError ("Cannot convert value " ++ monitor ++ " to type System.Int32.") ;;
        notFound
    end
  else ret None.

(** The monitor is spliced as it is, between single quotes (lines 405,
    406) and between double quotes (406, 407, 414). *)
Definition monitorParses (monitor : string) : bool :=
  match rawText monitor with
  | Some _ => negb (closesDouble monitor)
  | None => false
  end.

Definition monitorScript (monitor : string) (path : string) : PS unit :=
  if monitorParses monitor then
    target <- selectMonitor monitor ;;
    match target with
    | None => throw ("Invalid monitor parameter: " ++ monitor)
    | Some s =>
        CopyFromScreen (X s) (Y s) (Width s) (Height s) ;;
        Save path (Width s) (Height s) ;;
        WriteHost ("Screenshot of monitor " ++ monitor ++ " saved successfully")
    end
  else throw "ParserError".

End Script.

(* ------------------------------------------------------------------ *)
(** ** The request boundary *)

Module Handler.

Import Script.

(** A JavaScript [Error] as the catch clause reads it; an empty field is
    a falsy one. *)
Record JsError : Type := mkError {
  message : string;
  stderr : string;
  stdout : string
}.

(** [{ content: [{ type: 'text', text }], isError }]. *)
Record Payload : Type := mkPayload {
  text : string;
  isError : bool
}.

(** How the promise of the handler settles. *)
Inductive Settled : Type :=
| Fulfilled (p : Payload)
| Rejected (e : JsError).

(** What lies outside the handler: the desktop, the file system's answers
    to [fs.mkdir] and [fs.access], node's [path.join], the path that
    lines 199-220 derive from the folder, the file name, the working
    directory and WSL_DISTRO_NAME, and
    [Buffer.from(psScript, 'utf16le').toString('base64')] as a function
    of the texts spliced into the script. *)
Record Env : Type := mkEnv {
  desktop0 : Desktop.State;
  mkdirError : option JsError;
  accessError : option JsError;
  path_join : string -> string -> string;
  windowsPath : string;
  encoded : list string -> string
}.

Definition filenameOrDefault (a : JS.Arguments) : string :=
  if JS.truthyText (JS.filename a) then JS.spliceText (JS.filename a) else "screenshot.png".

(** [windowsPath.replace(/\\/g, '\\\\')]. *)
Definition splicedPath (env : Env) : string :=
  Text.Replace (windowsPath env) "\" "\\".

Definition psScript (env : Env) (a : JS.Arguments) : PS unit :=
  let monitor := JS.monitorOrAll a in
  if JS.wantsWindow a then windowScript a (splicedPath env)
  else if JS.isAll monitor then allMonitorsScript (splicedPath env)
  else monitorScript (JS.spliceMonitor monitor) (splicedPath env).

Definition newline : string := String (ascii_of_nat 10) EmptyString.

Definition lines (l : list string) : string :=
  String.concat "" (map (fun s => s ++ newline) l).

(** The texts the template of the generated script is filled with. *)
Definition splices (env : Env) (a : JS.Arguments) : list string :=
  if JS.wantsWindow a then
    ["window"; JS.psFilter a; JS.psWindowTitle a; JS.psProcessName a;
     JS.psAllowFocus a; JS.psRestore a;
     JS.spliceText (JS.windowHandle a); JS.spliceNumber (JS.windowNumber a);
     JS.spliceText (JS.windowTitle a); JS.spliceText (JS.processName a);
     splicedPath env]
  else if JS.isAll (JS.monitorOrAll a) then ["all"; splicedPath env]
  else ["monitor"; JS.spliceMonitor (JS.monitorOrAll a); splicedPath env].

Definition commandLine (env : Env) (spliced : list string) : string :=
  "powershell.exe -NoProfile -NonInteractive -ExecutionPolicy Bypass -OutputFormat Text -EncodedCommand "
  ++ encoded env spliced.

(** [await execAsync(...)]: a script that throws makes the process exit
    with a failure code and the promise reject; otherwise the two streams
    come back.  The output stream is given by the lines of [Write-Host];
    the number that [SetProcessDpiAwareness] leaves in front of them is
    not followed, and the statements about a failure speak of what its
    text includes. *)
Definition execAsync (env : Env) (spliced : list string) (script : PS unit)
  : (string * string) + JsError :=
  match script (boot (desktop0 env)) with
  | (Normal _, h) => inl (lines (out h), lines (err h))
  | (Thrown msg, h) =>
      let errText := lines (err h ++ [msg]) in
      inr (mkError ("Command failed: " ++ commandLine env spliced ++ newline ++ errText)
                   errText (lines (out h)))
  end.

Definition hasRealError (stderr : string) : bool :=
  negb (stderr =? "")%string
  && (Text.includes stderr "throw"
      || Text.includes stderr "Exception"
      || Text.includes (Text.toLower stderr) "methodnotfound"
      || Text.includes (Text.toLower stderr) "does not contain a method named 'printwindow'"
      || Text.includes (Text.toLower stderr) "does not contain a method named"
      || Text.includes stderr "not found"
      || (Text.includes stderr "Error" && negb (Text.includes stderr "ErrorId"))).

Definition successPath (env : Env) (a : JS.Arguments) : string :=
  if JS.truthyText (JS.folder a)
  then Text.Replace (path_join env (JS.spliceText (JS.folder a)) (filenameOrDefault a)) "\" "/"
  else "screenshots/" ++ filenameOrDefault a.

(** The body of [try { ... }]: [inr] is an exception reaching [catch]. *)
Definition tryBlock (env : Env) (a : JS.Arguments) : Payload + JsError :=
  match execAsync env (splices env a) (psScript env a) with
  | inr e => inr e
  | inl (_, stderr) =>
      if hasRealError stderr then inr (mkError stderr "" "")
      else
        match accessError env with
        | Some e => inr e
        | None =>
            inl (mkPayload ("Screenshot saved successfully to: " ++ successPath env a) false)
        end
  end.

Definition catchBlock (error : JsError) : Payload :=
  let parts :=
    (["Failed to take screenshot:"]
     ++ (if (message error =? "")%string then [] else [message error])
     ++ (if (stderr error =? "")%string then [] else ["stderr:"; Text.trim (stderr error)])
     ++ (if (stdout error =? "")%string then [] else ["stdout:"; Text.trim (stdout error)]))%list in
  mkPayload (Text.join " " parts) true.

(** The [take_screenshot] arm of the CallTool handler.  [await fs.mkdir]
    stands before [try]. *)
Definition take_screenshot (env : Env) (a : JS.Arguments) : Settled :=
  match mkdirError env with
  | Some e => Rejected e
  | None =>
      match tryBlock env a with
      | inl p => Fulfilled p
      | inr e => Fulfilled (catchBlock e)
      end
  end.

(** The desktop and the streams once the script has run. *)
Definition afterScript (env : Env) (a : JS.Arguments) : Completion unit * Host :=
  psScript env a (boot (desktop0 env)).

End Handler.

(* ------------------------------------------------------------------ *)
(** ** Reading the selectors of a request *)

Module Request.

Import Script.

(** The order in which the script tries the selectors. *)
Definition priority : list Selector := [ByHandle; ByNumber; ByTitle; ByProcess].

(** A selector is given when its argument is present and, for a text,
    not empty. *)
Definition given (a : JS.Arguments) (s : Selector) : bool :=
  match s with
  | ByHandle => JS.truthyText (JS.windowHandle a)
  | ByNumber => match JS.windowNumber a with Some _ => true | None => false end
  | ByTitle => JS.truthyText (JS.windowTitle a)
  | ByProcess => JS.truthyText (JS.processName a)
  end.

(** The script's own reading: a handle whose text is [undefined] in any
    letter case counts as absent. *)
Definition supplied (a : JS.Arguments) (s : Selector) : bool :=
  match s with
  | ByHandle =>
      JS.truthyText (JS.windowHandle a)
      && negb (Text.eqi (JS.spliceText (JS.windowHandle a)) "undefined")
  | _ => given a s
  end.

Definition count (p : Selector -> bool) : nat := List.length (filter p priority).

(** The first selector of the priority order that satisfies [p]. *)
Definition first (p : Selector -> bool) : option Selector := find p priority.


Definition onlyNumber (k : Z) (flt : option string) (focus restore : bool) : JS.Arguments :=
  JS.mkArguments None None None None (Some k) None flt focus restore None.

Definition onlyProcess (p : string) : JS.Arguments :=
  JS.mkArguments None None None (Some p) None None None false false None.

Definition onlyTitle (t : string) (focus restore : bool) : JS.Arguments :=
  JS.mkArguments None None (Some t) None None None None focus restore None.

Definition onlyHandle (h : string) (focus restore : bool) : JS.Arguments :=
  JS.mkArguments None None None None None (Some h) None focus restore None.

(** The same request with other values of the two flags. *)
Definition withFlags (a : JS.Arguments) (focus restore : bool) : JS.Arguments :=
  JS.mkArguments (JS.filename a) (JS.monitor a) (JS.windowTitle a)
    (JS.processName a) (JS.windowNumber a) (JS.windowHandle a) (JS.filter a)
    focus restore (JS.folder a).

(** The title and the process name stand for themselves inside the
    double quotes of lines 313 and 319: neither holds a dollar sign or a
    backtick. *)
Definition literalTexts (a : JS.Arguments) : bool :=
  PowerShell.expansionFree (JS.spliceText (JS.windowTitle a))
  && PowerShell.expansionFree (JS.spliceText (JS.processName a)).

(** The text arguments of a window request are plain: the handle, the
    title and the process name are made of printable ASCII characters
    other than the two quotes, the dollar sign and the backtick, and the
    filter holds no typographic single quote (its apostrophes are doubled
    by [escPS]). *)
Definition plain (a : JS.Arguments) : bool :=
  PowerShell.plainBytes (JS.spliceText (JS.windowHandle a))
  && PowerShell.plainBytes (JS.spliceText (JS.windowTitle a))
  && PowerShell.plainBytes (JS.spliceText (JS.processName a))
  && PowerShell.curlyFree (match JS.filter a with Some s => s | None => "" end).

(** The same for the monitor of a monitor request. *)
Definition plainMonitor (a : JS.Arguments) : bool :=
  PowerShell.plainBytes (JS.spliceMonitor (JS.monitorOrAll a)).

(** The script generated for the request holds plain texts only. *)
Definition plainScript (a : JS.Arguments) : bool :=
  if JS.wantsWindow a then plain a else plainMonitor a.



Definition onlyMonitor (m : JS.MonitorArg) : JS.Arguments :=
  JS.mkArguments None (Some m) None None None None None false false None.

End Request.

(* ------------------------------------------------------------------ *)
(** ** Sample desktops *)

Module Samples.

Import Desktop.

Definition obliging (printWindow : bool) : Manager :=
  mkManager (fun _ => Some 100%nat) (fun _ => true) (fun _ => true)
            (fun _ => printWindow) None.

Definition unhelpful (printWindow : bool) : Manager :=
  mkManager (fun _ => Some 100%nat) (fun _ => false) (fun _ => false)
            (fun _ => printWindow) None.

(** Where a minimized window is reported to be. *)
Definition offscreen : RECT := mkRECT (-32000) (-32000) (-31840) (-31972).

Definition editor : Window :=
  mkWindow 1001 true "Untitled - Notepad" 41 (Some "notepad")
           (mkRECT 100 50 900 650) offscreen.

Definition calculator : Window :=
  mkWindow 1002 true "Calculator" 42 (Some "CalculatorApp")
           (mkRECT 5 4 405 604) offscreen.

Definition ghost : Window :=
  mkWindow 1003 false "Ghost" 43 None (mkRECT 0 0 10 10) offscreen.

Definition main : Screen := mkScreen 0 0 1920 1080 true.
Definition side : Screen := mkScreen (-1280) 0 1280 1024 false.

(** Calculator in front, Notepad behind it, one hidden window. *)
Definition office (m : Manager) (minimized : list Z) : State :=
  mkState [ghost; calculator; editor] minimized 1002 None [main; side] m.


Definition eacces : Handler.JsError :=
  Handler.mkError "EACCES: permission denied, mkdir '/proc/shots'" "" "".

Definition enoent : Handler.JsError :=
  Handler.mkError "ENOENT: no such file or directory, access 'screenshots/screenshot.png'" "" "".

(** The world of the samples: no fault of the file system, a path
    already derived, and a stand-in for the base64 text, made of the
    spliced texts. *)
Definition env (d : State) : Handler.Env :=
  Handler.mkEnv d None None (fun a b => a ++ "/" ++ b) "C:\shots\screenshot.png"
              (fun spliced => "QQBkAGQA" ++ String.concat "" spliced).

Definition envNoMkdir (d : State) : Handler.Env :=
  Handler.mkEnv d (Some eacces) None (fun a b => a ++ "/" ++ b) "C:\shots\screenshot.png"
              (fun spliced => "QQBkAGQA" ++ String.concat "" spliced).

Definition envNoFile (d : State) : Handler.Env :=
  Handler.mkEnv d None (Some enoent) (fun a b => a ++ "/" ++ b) "C:\shots\screenshot.png"
              (fun spliced => "QQBkAGQA" ++ String.concat "" spliced).

(** A request by title. *)
Definition calculatorPlain : JS.Arguments := Request.onlyTitle "Calculator" false false.

(** Requests by handle: the Calculator in hexadecimal, as list_windows
    prints it, and Notepad in decimal. *)
Definition calculatorByHandle : JS.Arguments :=
  Request.onlyHandle "0x000003EA" false false.
Definition notepadByHandle : JS.Arguments := Request.onlyHandle "1001" false false.
Definition notepadByHandleRestore : JS.Arguments :=
  Request.onlyHandle "1001" false true.

Definition firstMonitor : JS.Arguments := Request.onlyMonitor (JS.MonitorNumber 1).

(** [{ windowNumber: 0 }] and [{ processName: "notepad" }]. *)
Definition numberZero : JS.Arguments := Request.onlyNumber 0 None false false.
Definition notepadProcess : JS.Arguments := Request.onlyProcess "notepad".

(** [{ processName: "notepad", windowTitle: "" }]. *)
Definition notepadProcessEmptyTitle : JS.Arguments :=
  JS.mkArguments None None (Some "") (Some "notepad") None None None
                 false false None.

Definition saved : Handler.Settled :=
  Handler.Fulfilled
    (Handler.mkPayload "Screenshot saved successfully to: screenshots/screenshot.png" false).


(** A handle, and a title that the handle leaves no part to play. *)
Definition handleAndApostrophe : JS.Arguments :=
  JS.mkArguments None None (Some "Bob's notes") None None (Some "0x000003EA") None
                 false false None.


End Samples.

(* ------------------------------------------------------------------ *)
(** ** Output locations *)

Module Paths.

Definition isLowerLetter (c : ascii) : bool :=
  let n := nat_of_ascii c in ((97 <=? n) && (n <=? 122))%nat.

Definition isLetter (c : ascii) : bool :=
  let n := nat_of_ascii c in
  (((97 <=? n) && (n <=? 122)) || ((65 <=? n) && (n <=? 90)))%nat.

(** A global replacement of one character by another, as
    [s.replace(/\//g, '\\')] and [s.replace(/\\/g, '/')]. *)
Fixpoint replaceChar (from to : ascii) (s : string) : string :=
  match s with
  | EmptyString => EmptyString
  | String c s' =>
      String (if Ascii.eqb c from then to else c) (replaceChar from to s')
  end.

(** The match of [/^\/mnt\/([a-z])\//]: the drive letter and what follows
    the second slash. *)
Definition mntDrive (p : string) : option (ascii * string) :=
  match p with
  | String c1 (String c2 (String c3 (String c4 (String c5 (String l (String c7 rest)))))) =>
      if (String c1 (String c2 (String c3 (String c4 (String c5 EmptyString)))) =? "/mnt/")%string
         && isLowerLetter l && Ascii.eqb c7 "/"
      then Some (l, rest)
      else None
  | _ => None
  end.

(** [toWindowsPath(wslPath)]. *)
Definition toWindowsPath (wslPath : string) : string :=
  replaceChar "/" "\"
    (match mntDrive wslPath with
     | Some (l, rest) => String l (":\" ++ rest)
     | None => wslPath
     end).

(** [wslPath.replace(/^\//, '')]. *)
Definition dropLeadingSlash (s : string) : string :=
  match s with
  | String c rest => if Ascii.eqb c "/" then rest else s
  | EmptyString => EmptyString
  end.

(** [toWindowsUNC(wslPath)]; [distro] is [process.env.WSL_DISTRO_NAME || '']. *)
Definition toWindowsUNC (distro : string) (wslPath : string) : string :=
  if (distro =? "")%string then wslPath
  else "\\wsl$\" ++ distro ++ "\" ++ replaceChar "/" "\" (dropLeadingSlash wslPath).

(** What node supplies: the working directory, the environment variable,
    [path.join] and [path.resolve] on their argument lists. *)
Record Node : Type := mkNode {
  cwd : string;
  distro : string;
  path_join : list string -> string;
  path_resolve : list string -> string
}.

(** [customFolder.match(/^[A-Za-z]:\\\\/)]: a letter, a colon and two
    backslashes. *)
Definition isWindowsFolder (s : string) : bool :=
  match s with
  | String l (String c (String b1 (String b2 _))) =>
      isLetter l && Ascii.eqb c ":" && Ascii.eqb b1 "\" && Ascii.eqb b2 "\"
  | _ => false
  end.

Definition startsWithMnt (s : string) : bool := String.prefix "/mnt/" s.

(** [customFolder.replace(/^[A-Za-z]:/, `/mnt/${driveLetter}`)], taken on
    a folder that [isWindowsFolder] accepts. *)
Definition mountDrive (s : string) : string :=
  match s with
  | String l (String _ rest) => "/mnt/" ++ String (Text.lowerChar l) rest
  | _ => s
  end.

(** Lines 199-220: the directory to create and the path handed to
    PowerShell. *)
Definition locate (node : Node) (customFolder : option string) (filename : string)
  : string * string :=
  if JS.truthyText customFolder then
    let folder := JS.spliceText customFolder in
    if isWindowsFolder folder then
      (replaceChar "\" "/" (mountDrive folder),
       replaceChar "\" "\" (path_join node [folder; filename]))
    else if startsWithMnt folder then
      (folder, toWindowsPath folder ++ "\" ++ filename)
    else
      let screenshotsDir := path_resolve node [folder] in
      (screenshotsDir,
       if startsWithMnt screenshotsDir
       then path_join node [toWindowsPath screenshotsDir; filename]
       else path_join node [toWindowsUNC (distro node) screenshotsDir; filename])
  else
    let screenshotsDir := path_resolve node [cwd node; "screenshots"] in
    let outputPath := path_join node [screenshotsDir; filename] in
    (screenshotsDir,
     if startsWithMnt outputPath then toWindowsPath outputPath
     else toWindowsUNC (distro node) outputPath).

End Paths.

(* ------------------------------------------------------------------ *)
(** ** The list_windows tool *)

Module ListWindows.

Import Desktop PowerShell Script.

(** [request.params.arguments] of list_windows. *)
Record Arguments : Type := mkArguments {
  filter : option string;
  format : option string
}.

(** [[PSCustomObject]@{ Title; Process; PID; Handle; State }]. *)
Record Entry : Type := mkEntry {
  Title : string;
  Process : string;
  PID : Z;
  Handle : string;
  State : string
}.

Definition upperChar (c : ascii) : ascii :=
  let n := nat_of_ascii c in
  if ((97 <=? n) && (n <=? 122))%nat then ascii_of_nat (n - 32) else c.

Fixpoint toUpper (s : string) : string :=
  match s with
  | EmptyString => EmptyString
  | String c s' => String (upperChar c) (toUpper s')
  end.

Fixpoint zeros (n : nat) : string :=
  match n with
  | O => EmptyString
  | S n' => String "0" (zeros n')
  end.

(** [('{0:X8}' -f v)] for an Int64: upper-case hexadecimal of the
    64-bit pattern, at least eight digits. *)
Definition X8 (v : Z) : string :=
  let digits :=
    toUpper (HexadecimalString.NilZero.string_of_uint
               (N.to_hex_uint (Z.to_N (v mod 2 ^ 64)))) in
  zeros (8 - String.length digits) ++ digits.

(** [('0x{0:X8}' -f $hWnd.ToInt64())]. *)
Definition handleText (h : Z) : string := "0x" ++ X8 h.

(** [IsIconic] is asked first, then [IsZoomed]. *)
Definition stateOf (zoomed : Z -> bool) (d : Desktop.State) (h : Z) : string :=
  if Desktop.IsIconic h d then "Minimized"
  else if zoomed h then "Maximized"
  else "Normal".

(** The body of the EnumWindows callback; [flt] is the filter already in
    lower case. *)
Definition entry (zoomed : Z -> bool) (d : Desktop.State) (flt : string) (w : Window)
  : list Entry :=
  if visible w then
    if negb (caption w =? "")%string then
      let proc := match procName w with Some n => n | None => "" end in
      let line :=
        mkEntry (caption w) proc (procId w) (handleText (hWnd w))
                (stateOf zoomed d (hWnd w)) in
      if (flt =? "")%string
         || Text.includes (Text.toLower (caption w)) flt
         || Text.includes (Text.toLower proc) flt
      then [line]
      else []
    else []
  else [].

Definition results (zoomed : Z -> bool) (d : Desktop.State) (psFilter : Value)
  : list Entry :=
  flat_map (entry zoomed d (Text.toLower (toText psFilter))) (windows d).

Definition line (format : string) (i : nat) (w : Entry) : string :=
  if Text.eqi format "detailed" then
    Text.decimal (Z.of_nat i + 1) ++ ". " ++ Title w ++ " (Process: " ++ Process w
    ++ ", PID: " ++ Text.decimal (PID w) ++ ", Handle: " ++ Handle w
    ++ ", State: " ++ State w ++ ")"
  else
    Text.decimal (Z.of_nat i + 1) ++ ". " ++ Title w ++ " (Process: " ++ Process w ++ ")".

(** [for ($i=0; $i -lt $results.Count; $i++) { Write-Host ... }]. *)
Fixpoint writeLines (format : string) (i : nat) (l : list Entry) : PS unit :=
  match l with
  | [] => ret tt
  | w :: rest => WriteHost (line format i w) ;; writeLines format (S i) rest
  end.

Definition filterOrEmpty (a : Arguments) : string :=
  if JS.truthyText (filter a) then JS.spliceText (filter a) else "".

Definition formatOrSimple (a : Arguments) : string :=
  if JS.truthyText (format a) then JS.spliceText (format a) else "simple".

(** [filter] reaches the script through [escPS]; [format] is spliced
    between quotes as it is. *)
Definition psFilter (a : Arguments) : string :=
  "'" ++ JS.escPS (Some (filterOrEmpty a)) ++ "'".

Definition psFormat (a : Arguments) : string := "'" ++ formatOrSimple a ++ "'".

(** The script.  A filter or a format that is not one literal (a quote
    of either kind in the format, a typographic one in the filter) leaves
    a script that PowerShell refuses. *)
Definition psScript (zoomed : Z -> bool) (a : Arguments) : PS unit :=
  match literal (psFilter a), literal (psFormat a) with
  | Some flt, Some fmt =>
      d <- desktop ;;
      writeLines (toText fmt) 0 (results zoomed d flt)
  | _, _ => throw "ParserError"
  end.

Definition catchBlock (error : Handler.JsError) : Handler.Payload :=
  let parts :=
    (["Failed to list windows:"]
     ++ (if (Handler.message error =? "")%string then [] else [Handler.message error])
     ++ (if (Handler.stderr error =? "")%string then []
         else ["stderr:"; Text.trim (Handler.stderr error)])
     ++ (if (Handler.stdout error =? "")%string then []
         else ["stdout:"; Text.trim (Handler.stdout error)]))%list in
  Handler.mkPayload (Text.join " " parts) true.

(** The [list_windows] arm of the CallTool handler. *)
Definition list_windows (zoomed : Z -> bool) (env : Handler.Env) (a : Arguments)
  : Handler.Payload :=
  match Handler.execAsync env ["list"; psFilter a; formatOrSimple a]
                          (psScript zoomed a) with
  | inl (stdout, _) =>
      let trimmed := Text.trim stdout in
      Handler.mkPayload
        (if (trimmed =? "")%string then "No windows found" else trimmed) false
  | inr e => catchBlock e
  end.

End ListWindows.

(* ------------------------------------------------------------------ *)
(** ** Reading texts *)

Module Reading.


Fixpoint hasChar (c : ascii) (s : string) : bool :=
  match s with
  | EmptyString => false
  | String d s' => Ascii.eqb d c || hasChar c s'
  end.

(** Calls that copy pixels or write the file. *)
Definition copiesOrSaves (c : Script.Call) : Prop :=
  match c with
  | Script.EvCopyFromScreen _ _ _ _ | Script.EvSave _ _ _ => True
  | _ => False
  end.

Definition isSave (c : Script.Call) : bool :=
  match c with
  | Script.EvSave _ _ _ => true
  | _ => false
  end.




End Reading.

(* ------------------------------------------------------------------ *)
(** ** More sample requests *)

Module Cases.

Definition node : Paths.Node :=
  Paths.mkNode "/home/me/project" "Ubuntu"
    (fun l => Text.join "/" l)
    (fun l => match l with [p] => "/home/me/project/" ++ p | _ => Text.join "/" l end).


Definition titleNobody : JS.Arguments := Request.onlyTitle "Nobody" false false.

Definition handleOnly (h : string) : JS.Arguments :=
  JS.mkArguments None None None None None (Some h) None false false None.

(** A handle, and a filter with an apostrophe. *)
Definition filterWithApostrophe : JS.Arguments :=
  JS.mkArguments None None None None None (Some "1002") (Some "Bob's") false false None.

Definition quietFault (printWindow : bool) : Desktop.Manager :=
  Desktop.mkManager (fun _ => Some 100%nat) (fun _ => true) (fun _ => true)
                    (fun _ => printWindow) (Some "the disk is full").

Definition slow (ms : nat) : Desktop.Manager :=
  Desktop.mkManager (fun _ => Some ms) (fun _ => true) (fun _ => true)
                    (fun _ => true) None.

Definition noZoom : Z -> bool := fun _ => false.



End Cases.

(* ------------------------------------------------------------------ *)
(** ** The definitions at work *)

Example like_star_star : Text.like "Calculator" "**" = true.
Proof. reflexivity. Qed.

Example like_contains : Text.like "Untitled - Notepad" "*notepad*" = true.
Proof. reflexivity. Qed.

Example replace_exe : Text.Replace "notepad.exe" ".exe" "" = "notepad".
Proof. reflexivity. Qed.

Example replace_exe_inside : Text.Replace "my.exec.exe" ".exe" "" = "myc".
Proof. reflexivity. Qed.

Example decimal_12 : Text.decimal 12 = "12" /\ Text.decimal (-3) = "-3" /\ Text.decimal 0 = "0".
Proof. repeat split. Qed.

Example readHex_ex : Text.readHex "0x000A01F" = Some 40991.
Proof. reflexivity. Qed.

Example trim_ex : Text.trim "  a b  " = "a b".
Proof. reflexivity. Qed.

Example literal_quoted_false :
  PowerShell.literal "'$false'" = Some (PowerShell.VString "$false").
Proof. reflexivity. Qed.

Example literal_bare_false :
  PowerShell.literal "$false" = Some (PowerShell.VBool false).
Proof. reflexivity. Qed.

Example literal_escaped :
  PowerShell.literal (JS.psWindowTitle
    (JS.mkArguments None None (Some "Bob's notes") None None None None false false None))
  = Some (PowerShell.VString "Bob's notes").
Proof. reflexivity. Qed.

Example like_is_a_wildcard_match : Text.like "calc" "*c?lc*" = true.
Proof. reflexivity. Qed.

Example filter_narrows_the_list :
  map Script.Title
      (flat_map (Script.listed "NOTE")
                (Desktop.windows (Samples.office (Samples.obliging true) [])))
  = ["Untitled - Notepad"].
Proof. reflexivity. Qed.

Example hidden_windows_are_not_listed :
  map Script.Handle
      (flat_map (Script.listed "")
                (Desktop.windows (Samples.office (Samples.obliging true) [])))
  = [1002; 1001].
Proof. reflexivity. Qed.

Example screens_sorted_left_to_right :
  Desktop.sortByX [Samples.main; Samples.side] = [Samples.side; Samples.main].
Proof. reflexivity. Qed.

Example restoration_refused_success_kept :
  Handler.take_screenshot
    (Samples.env (Samples.office (Samples.unhelpful true) [1001]))
    Samples.notepadByHandleRestore
  = Samples.saved.
Proof. vm_compute. reflexivity. Qed.

Example stderr_with_exception_is_real :
  Handler.hasRealError "Exception calling Save" = true
  /\ Handler.hasRealError "" = false
  /\ Handler.hasRealError "FullyQualifiedErrorId : x" = false.
Proof. repeat split. Qed.


(* ------------------------------------------------------------------ *)
(** ** Text lemmas *)

Section TextFacts.

Import Text.




















Lemma prefix_app (n a b : string) :
  String.prefix n a = true -> String.prefix n (a ++ b) = true.
Proof.
  revert a. induction n as [|c n IH]; intros a H.
  - now destruct (a ++ b).
  - destruct a as [|c' a]; [discriminate|]. simpl in *.
    destruct (ascii_dec c c'); [now apply IH | discriminate].
Qed.

Lemma prefix_refl (n : string) : String.prefix n n = true.
Proof.
  induction n as [|c n IH]; [reflexivity|]. simpl.
  destruct (ascii_dec c c); [exact IH | congruence].
Qed.

Lemma prefix_empty (a : string) : String.prefix "" a = true.
Proof. now destruct a. Qed.

Lemma includes_empty (a : string) : includes a "" = true.
Proof. destruct a; [reflexivity|]. cbn [includes]. now rewrite prefix_empty. Qed.

Lemma includes_refl (n : string) : includes n n = true.
Proof.
  destruct n as [|c n]; [reflexivity|].
  cbn [includes]. now rewrite prefix_refl.
Qed.

Lemma includes_app_l (a b n : string) :
  includes a n = true -> includes (a ++ b) n = true.
Proof.
  induction a as [|c a IH]; intros H.
  - simpl in H. apply String.eqb_eq in H. subst n. apply includes_empty.
  - cbn [includes] in H. apply orb_true_iff in H.
    change (String c a ++ b) with (String c (a ++ b)). cbn [includes].
    apply orb_true_iff. destruct H as [H|H].
    + left. now apply (prefix_app n (String c a) b).
    + right. now apply IH.
Qed.

Lemma includes_app_r (a b n : string) :
  includes b n = true -> includes (a ++ b) n = true.
Proof.
  intros H. induction a as [|c a IH]; [exact H|].
  change (String c a ++ b) with (String c (a ++ b)). cbn [includes].
  rewrite IH. apply orb_true_r.
Qed.

Lemma prefix_of_longer (a b s : string) :
  String.prefix (a ++ b) s = true -> String.prefix a s = true.
Proof.
  revert s. induction a as [|c a IH]; intros s H; [now destruct s|].
  destruct s as [|x s]; [discriminate|]. cbn in *.
  destruct (ascii_dec c x); [now apply IH | discriminate].
Qed.

(** A text that holds a message holds the message's first part. *)
Lemma includes_first_part (hay a b : string) :
  includes hay (a ++ b) = true -> includes hay a = true.
Proof.
  induction hay as [|c hay IH]; cbn [includes].
  - intros H. apply String.eqb_eq in H. destruct a; [reflexivity | discriminate].
  - intros H. apply orb_true_iff in H. apply orb_true_iff.
    destruct H as [H|H]; [left; now apply prefix_of_longer with b | right; now apply IH].
Qed.

End TextFacts.

(* ------------------------------------------------------------------ *)
(** ** The injected variables *)

Section InjectedFacts.

Import PowerShell Script.

Lemma dropClosingQuote_app (s : string) :
  dropClosingQuote (s ++ "'") = Some s.
Proof.
  induction s as [|c s IH]; [reflexivity|].
  simpl. destruct (s ++ "'") eqn:E.
  - destruct s; discriminate.
  - rewrite IH. reflexivity.
Qed.

Lemma curly_apostrophe_second (c1 c3 : ascii) : curlySingle c1 "'" c3 = false.
Proof. unfold curlySingle. cbn. now rewrite andb_false_r. Qed.

Lemma curly_apostrophe_third (c1 c2 : ascii) : curlySingle c1 c2 "'" = false.
Proof. unfold curlySingle. cbn. now rewrite andb_false_r. Qed.

Lemma glyphs_plain (c1 : ascii) (t : string) :
  Ascii.eqb c1 "'" = false ->
  match t with
  | String c2 (String c3 _) => curlySingle c1 c2 c3
  | _ => false
  end = false ->
  glyphs (String c1 t) = Plain c1 :: glyphs t.
Proof.
  intros E H. cbn [glyphs]. rewrite E.
  destruct t as [|c2 [|c3 r3]]; trivial. now rewrite H.
Qed.

(** Doubling the apostrophes brings no typographic quote about. *)
Lemma doubleQuotes_head (c1 : ascii) (r1 : string) :
  match r1 with
  | String c2 (String c3 _) => negb (curlySingle c1 c2 c3)
  | _ => true
  end = true ->
  match JS.doubleQuotes r1 with
  | String c2 (String c3 _) => curlySingle c1 c2 c3
  | _ => false
  end = false.
Proof.
  destruct r1 as [|c2 [|c3 r3]]; cbn [JS.doubleQuotes]; intros H; trivial.
  - destruct (Ascii.eqb c2 "'"); [apply curly_apostrophe_second | reflexivity].
  - destruct (Ascii.eqb c2 "'"); [apply curly_apostrophe_second|].
    destruct (Ascii.eqb c3 "'"); [apply curly_apostrophe_third|].
    now apply negb_true_iff in H.
Qed.

Lemma unquote_doubleQuotes (s : string) :
  curlyFree s = true -> unquote (JS.doubleQuotes s) = Some s.
Proof.
  unfold unquote. induction s as [|c1 r1 IH]; [reflexivity|].
  intros H. cbn [curlyFree] in H. apply andb_true_iff in H. destruct H as [Hh Hr].
  cbn [JS.doubleQuotes]. destruct (Ascii.eqb c1 "'") eqn:E.
  - apply Ascii.eqb_eq in E. subst c1.
    cbn [glyphs Ascii.eqb Bool.eqb unquoteGlyphs]. now rewrite (IH Hr).
  - rewrite (glyphs_plain c1 _ E (doubleQuotes_head c1 r1 Hh)).
    cbn [unquoteGlyphs]. now rewrite (IH Hr).
Qed.

(** What [escPS] writes between quotes is read back unchanged, when the
    text holds no typographic quote. *)
Lemma literal_escPS (o : option string) :
  curlyFree (match o with Some s => s | None => "" end) = true ->
  literal ("'" ++ JS.escPS o ++ "'")
  = Some (VString (match o with Some s => s | None => "" end)).
Proof.
  intros H. unfold literal, JS.escPS. simpl.
  rewrite dropClosingQuote_app.
  now rewrite (unquote_doubleQuotes _ H).
Qed.



Lemma plainByte_facts (c : ascii) :
  plainByte c = true ->
  Ascii.eqb c "'" = false /\ Ascii.eqb c (ascii_of_nat 34) = false
  /\ Ascii.eqb c "$" = false /\ Ascii.eqb c "`" = false
  /\ (nat_of_ascii c =? 226)%nat = false.
Proof.
  destruct c as [[] [] [] [] [] [] [] []]; vm_compute; intros H;
    try discriminate H; repeat split.
Qed.



(** Nor a dollar sign or a backtick. *)
Lemma plainBytes_expansionFree (s : string) :
  plainBytes s = true -> expansionFree s = true.
Proof.
  induction s as [|c r IH]; [reflexivity|].
  cbn [plainBytes expansionFree]. intros H.
  apply andb_true_iff in H. destruct H as [Hc Hr].
  destruct (plainByte_facts c Hc) as (_ & _ & -> & -> & _). now rewrite (IH Hr).
Qed.




(** The two flags are literals whatever the request says: both arrive
    as the five- or six-letter strings [$true] and [$false], never as
    Booleans. *)
Lemma injected_flags (a : JS.Arguments) (inj : Injected) :
  injected a = Some inj ->
  var_psAllowFocus inj = VString (if JS.allowFocus a then "$true" else "$false")
  /\ var_psRestore inj
     = VString (if JS.restoreIfMinimized a then "$true" else "$false").
Proof.
  unfold injected. destruct (splicesParse a); [|discriminate].
  unfold JS.psAllowFocus, JS.psRestore.
  destruct (literal (JS.psFilter a)), (literal (JS.psWindowTitle a)),
           (literal (JS.psProcessName a)), (JS.allowFocus a),
           (JS.restoreIfMinimized a);
    cbn; intros [= <-] || discriminate; split; reflexivity.
Qed.


(** Both flags convert to true whatever the request says. *)
Lemma flags_always_true (a : JS.Arguments) (inj : Injected) :
  injected a = Some inj ->
  IsTrue (var_psAllowFocus inj) = true /\ IsTrue (var_psRestore inj) = true.
Proof.
  intros H. destruct (injected_flags a inj H) as [-> ->].
  destruct (JS.allowFocus a), (JS.restoreIfMinimized a); split; reflexivity.
Qed.

End InjectedFacts.

(* ------------------------------------------------------------------ *)
(** ** Selector priority *)

Section SelectorPriority.

Import PowerShell Script Request.







End SelectorPriority.


(* ------------------------------------------------------------------ *)
(** ** What a run leaves untouched *)

Section Frames.

Import Desktop PowerShell Script.

Lemma sameSetting_refl (d : State) : sameSetting d d.
Proof. repeat split. Qed.

Lemma sameSetting_trans (d1 d2 d3 : State) :
  sameSetting d1 d2 -> sameSetting d2 d3 -> sameSetting d1 d3.
Proof. unfold sameSetting. intuition congruence. Qed.

Lemma elapse_setting (ms : nat) (d : State) : sameSetting d (elapse ms d).
Proof.
  unfold elapse. destruct (restoring d) as [[h due]|]; [|apply sameSetting_refl].
  destruct (due <=? ms)%nat; repeat split.
Qed.

Lemma show_setting (h cmd : Z) (d : State) : sameSetting d (show h cmd d).
Proof.
  unfold show. destruct (cmd =? 9).
  - destruct (Desktop.IsIconic h d); [|apply sameSetting_refl].
    destruct (restoreDelay (manager d) h) as [[|n]|]; repeat split.
  - destruct (cmd =? 6); [|apply sameSetting_refl].
    destruct (minimizes (manager d) h); repeat split.
Qed.

Lemma activate_setting (h : Z) (d : State) : sameSetting d (activate h d).
Proof. unfold activate. destruct (foregrounds (manager d) h); repeat split. Qed.

Lemma awaitRestore_setting (h : Z) (n : nat) :
  forall d, sameSetting d (awaitRestore h n d).
Proof.
  induction n as [|n IH]; intros d; simpl; [apply sameSetting_refl|].
  destruct (negb (Desktop.IsIconic h d)); [apply sameSetting_refl|].
  eapply sameSetting_trans; [apply elapse_setting | apply IH].
Qed.

Lemma manager_elapse (ms : nat) (d : State) : manager (elapse ms d) = manager d.
Proof. apply (elapse_setting ms d). Qed.

Lemma manager_show (h cmd : Z) (d : State) : manager (show h cmd d) = manager d.
Proof. apply (show_setting h cmd d). Qed.

Lemma manager_activate (h : Z) (d : State) : manager (activate h d) = manager d.
Proof. apply (activate_setting h d). Qed.

Lemma manager_awaitRestore (h : Z) (n : nat) (d : State) :
  manager (awaitRestore h n d) = manager d.
Proof. apply (awaitRestore_setting h n d). Qed.

Lemma readyToCapture_setting (h : Z) (d : State) :
  sameSetting d (readyToCapture h d).
Proof.
  unfold readyToCapture. destruct (Desktop.IsIconic h d); [|apply sameSetting_refl].
  eapply sameSetting_trans; [apply show_setting | apply awaitRestore_setting].
Qed.

Lemma manager_readyToCapture (h : Z) (d : State) :
  manager (readyToCapture h d) = manager d.
Proof. apply (readyToCapture_setting h d). Qed.

(** The poll loop never throws and touches nothing but the clock. *)
Lemma pollRestored_run (target : Z) (n : nat) : forall h,
  pollRestored target n h
  = (Normal tt, mkHost (awaitRestore target n (desk h)) (calls h) (out h) (err h)).
Proof.
  induction n as [|n IH]; intros h; simpl.
  - destruct h; reflexivity.
  - unfold bind, IsIconic, desktop, ret. simpl.
    destruct (negb (Desktop.IsIconic target (desk h))).
    + destruct h; reflexivity.
    + unfold StartSleep, change. rewrite IH. reflexivity.
Qed.

(** Minimizing shows at once when the manager carries it out. *)
Lemma iconic_after_minimize (h : Z) (d : State) :
  minimizes (manager d) h = true -> Desktop.IsIconic h (show h 6 d) = true.
Proof.
  intros Hm. unfold show. simpl. rewrite Hm.
  unfold Desktop.IsIconic. simpl. now rewrite Z.eqb_refl.
Qed.

Lemma iconic_activate (h t : Z) (d : State) :
  Desktop.IsIconic t (activate h d) = Desktop.IsIconic t d.
Proof. unfold activate. now destruct (foregrounds (manager d) h). Qed.

Lemma foreground_activate (h : Z) (d : State) :
  foregrounds (manager d) h = true -> foreground (activate h d) = h.
Proof. intros Hf. unfold activate. now rewrite Hf. Qed.

End Frames.

Create Rewrite HintDb setting.
#[local] Hint Rewrite manager_elapse manager_show manager_activate
  manager_awaitRestore manager_readyToCapture : setting.

Ltac go :=
  cbn -[Script.pollRestored Desktop.show Desktop.awaitRestore Desktop.elapse
        Desktop.activate Desktop.IsIconic Desktop.GetWindowRect
        Script.captureBounds Z.eqb].

Ltac case_if :=
  match goal with |- context [if ?b then _ else _] => destruct b end.

Ltac case_option :=
  match goal with
  | |- context [match ?x with Some _ => _ | None => _ end] => destruct x
  end.

Ltac step :=
  unfold Script.bind at 1; go; rewrite ?pollRestored_run;
  autorewrite with setting.

(* ------------------------------------------------------------------ *)
(** ** The capture protocol *)

Section Capture.

Import Desktop PowerShell Script.

(** Every run of the capture protocol under flags that convert to true:
    it never throws, and its calls, output and final desktop are these. *)
Lemma captureTarget_run (inj : Injected) (path : string) (target : Z) (h : Host) :
  IsTrue (var_psRestore inj) = true -> IsTrue (var_psAllowFocus inj) = true ->
  let d := desk h in
  let was := Desktop.IsIconic target d in
  let prev := foreground d in
  let ok := printWindowOk (manager d) target in
  let d1 := readyToCapture target d in
  let rc := Desktop.GetWindowRect target d1 in
  let lft := fst (fst (fst (captureBounds rc))) in
  let top := snd (fst (fst (captureBounds rc))) in
  let width := snd (fst (captureBounds rc)) in
  let height := snd (captureBounds rc) in
  let saved :=
    match saveFault (manager d) with
    | None => [EvSave path width height]
    | Some _ => []
    end in
  let fault := match saveFault (manager d) with None => [] | Some e => [e] end in
  let d2 := if ok then d1 else elapse 200 (activate target d1) in
  let d3 := if was then show target 6 d2 else d2 in
  let d4 := if prev =? 0 then d3 else activate prev d3 in
  captureTarget inj path target h
  = (Normal tt,
     mkHost d4
       (calls h
        ++ (if was then [EvShowWindowAsync target 9] else [])
        ++ [EvPrintWindow target width height 2]
        ++ (if ok then saved
            else [EvSetForegroundWindow target;
                  EvCopyFromScreen lft top width height] ++ saved)
        ++ (if was then [EvShowWindowAsync target 6] else [])
        ++ (if prev =? 0 then [] else [EvSetForegroundWindow prev]))
       (out h ++ [if ok then "Window screenshot saved successfully (background)"
                  else "Window screenshot saved successfully (foreground fallback)"])
       (err h ++ fault)).
Proof.
  intros Hr Hf. cbv zeta.
  unfold captureTarget, readyToCapture. rewrite Hr, Hf.
  destruct h as [d cs o e]. cbn [desk calls out err].
  step.
  destruct (Desktop.IsIconic target d) eqn:Hwas; cbn [andb];
    do 4 step;
    match goal with
    | |- context [captureBounds ?rc] =>
        destruct (captureBounds rc) as [[[lft top] width] height]
    end;
    go; step;
    destruct (printWindowOk (manager d) target) eqn:Hok; go;
    repeat step; go; autorewrite with setting;
    destruct (saveFault (manager d)) as [fault|]; go; repeat step;
    destruct (foreground d =? 0); go;
    unfold ret; rewrite ?app_nil_r, <- ?app_assoc; reflexivity.
Qed.

(** The enumeration is lost: whatever windows are open, the function
    returns the empty array it started from. *)
Lemma callback_keeps (flt : string) (ws : list Window) (arr : list Listed) :
  fold_left (callback flt) ws arr = arr.
Proof. revert arr. induction ws as [|w ws IH]; intros arr; [reflexivity | apply IH]. Qed.

Lemma GetWindowsList_empty (flt : string) (h : Host) :
  GetWindowsList flt h = (Normal [], h).
Proof.
  cbv beta iota zeta delta [GetWindowsList bind desktop ret].
  now rewrite callback_keeps.
Qed.

(** The three branches that go through the enumeration always throw. *)
Lemma byNumber_run (n flt : string) (h : Host) :
  byNumber n flt h
  = (Thrown ("Invalid windowNumber: " ++ n ++ ". Available: 1..0"),
     match Text.castInt32 n with
     | Some _ => h
     | None =>
         mkHost (desk h) (calls h) (out h)
           (err h ++ ["Cannot convert value " ++ n ++ " to type System.Int32."])
     end).
Proof.
  unfold byNumber, bind at 1. rewrite GetWindowsList_empty.
  cbn [List.length Z.of_nat]. change (Text.decimal 0) with "0".
  destruct (Text.castInt32 n) as [k|].
  - replace ((k - 1 <? 0) || (k - 1 >=? 0)) with true; [reflexivity|].
    symmetry. destruct (k - 1 <? 0) eqn:E; [reflexivity|].
    apply Z.ltb_ge in E. rewrite Z.geb_leb. now apply Z.leb_le.
  - reflexivity.
Qed.

Lemma byTitle_run (t : string) (v : Value) (flt : string) (h : Host) :
  byTitle t v flt h = (Thrown ("No window found with title containing: " ++ t), h).
Proof. unfold byTitle, bind. now rewrite GetWindowsList_empty. Qed.

Lemma byProcess_run (p : string) (v : Value) (flt : string) (h : Host) :
  byProcess p v flt h = (Thrown ("No window found for process: " ++ p), h).
Proof. unfold byProcess, bind. now rewrite GetWindowsList_empty. Qed.

(** Selecting the target reads the desktop and may write to the error
    stream; it makes no call and prints nothing. *)
Lemma resolveTarget_reads (a : JS.Arguments) (inj : Injected) (h : Host) :
  let r := resolveTarget a inj h in
  desk (snd r) = desk h /\ calls (snd r) = calls h /\ out (snd r) = out h.
Proof.
  unfold resolveTarget.
  destruct (branch a) as [[ | | | ]|]; cbv zeta.
  - unfold byHandle.
    generalize (JS.spliceText (JS.windowHandle a)). intros hd.
    destruct (if Text.like hd "0x*" then Text.readHex hd else Text.castInt64 hd);
      repeat split.
  - rewrite byNumber_run. destruct (Text.castInt32 _); repeat split.
  - rewrite byTitle_run. repeat split.
  - rewrite byProcess_run. repeat split.
  - repeat split.
Qed.

(** Only a handle resolves a window: a resolved target that is not null
    comes from the handle branch, and the host is as it was. *)
Lemma resolveTarget_normal (a : JS.Arguments) (inj : Injected) (h h1 : Host) (t : Z) :
  resolveTarget a inj h = (Normal t, h1) -> t <> 0 ->
  branch a = Some ByHandle /\ h1 = h.
Proof.
  unfold resolveTarget.
  destruct (branch a) as [[ | | | ]|]; cbv zeta.
  - unfold byHandle.
    generalize (JS.spliceText (JS.windowHandle a)). intros hd.
    destruct (if Text.like hd "0x*" then Text.readHex hd else Text.castInt64 hd).
    + unfold ret. now intros [= _ <-].
    + cbv beta iota delta [bind WriteError ret]. intros [= <- _]. congruence.
  - rewrite byNumber_run. discriminate.
  - rewrite byTitle_run. discriminate.
  - rewrite byProcess_run. discriminate.
  - unfold ret. intros [= <- _]. congruence.
Qed.

(** Once a window is resolved the script is the capture protocol. *)
Lemma windowScript_resolved (a : JS.Arguments) (inj : Injected) (path : string)
      (target : Z) (h h1 : Host) :
  injected a = Some inj ->
  resolveTarget a inj h = (Normal target, h1) ->
  target <> 0 ->
  windowScript a path h = captureTarget inj path target h1.
Proof.
  intros Hinj Hres Hnz. unfold windowScript. rewrite Hinj.
  unfold bind at 1. rewrite Hres.
  apply Z.eqb_neq in Hnz. rewrite Hnz. reflexivity.
Qed.

(** No request makes the capture protocol throw: neither the refusal of a
    minimized window nor the refusal of the fallback can be reached. *)
Lemma capture_never_throws (a : JS.Arguments) (inj : Injected) (path : string)
      (target : Z) (h : Host) :
  injected a = Some inj -> fst (captureTarget inj path target h) = Normal tt.
Proof.
  intros Hinj. destruct (flags_always_true a inj Hinj) as [Hf Hr].
  now rewrite (captureTarget_run inj path target h Hr Hf).
Qed.

(** The two flags have no effect on what the window script does. *)
Lemma flags_have_no_effect (a : JS.Arguments) (focus restore : bool) (path : string) :
  windowScript (Request.withFlags a focus restore) path = windowScript a path.
Proof.
  unfold windowScript, injected.
  destruct a as [fn mon t p k hd flt foc res fld].
  change (splicesParse (Request.withFlags
            (JS.mkArguments fn mon t p k hd flt foc res fld) focus restore))
    with (splicesParse (JS.mkArguments fn mon t p k hd flt foc res fld)).
  destruct (splicesParse _); [|reflexivity].
  unfold Request.withFlags, JS.psFilter, JS.psWindowTitle, JS.psProcessName,
    JS.psAllowFocus, JS.psRestore.
  cbn [JS.filter JS.windowTitle JS.processName JS.allowFocus JS.restoreIfMinimized
       JS.filename JS.monitor JS.windowNumber JS.windowHandle JS.folder].
  destruct (literal ("'" ++ JS.escPS flt ++ "'")),
           (literal ("'" ++ JS.escPS t ++ "'")),
           (literal ("'" ++ JS.escPS p ++ "'")),
           focus, restore, foc, res; reflexivity.
Qed.

End Capture.

Section SelectorPriorityClaim.

Import PowerShell Script Request.


(** C1, as stated, fails also on an apostrophe in a selector that has
    no part to play: the title is spliced into the script as it is, the
    script no longer parses, and the request that the handle alone would
    have carried out ends in an error. *)
Lemma ignored_title_with_apostrophe_breaks_the_script :
  let env := Samples.env (Samples.office (Samples.obliging true) []) in
  first (supplied Samples.handleAndApostrophe) = Some ByHandle
  /\ injected Samples.handleAndApostrophe = None
  /\ calls (snd (Handler.afterScript env Samples.handleAndApostrophe)) = []
  /\ (exists p, Handler.take_screenshot env Samples.handleAndApostrophe
                = Handler.Fulfilled p
                /\ Handler.isError p = true)
  /\ Handler.take_screenshot env Samples.calculatorByHandle = Samples.saved.
Proof.
  cbv zeta. repeat split; try (vm_compute; reflexivity).
  eexists. split; vm_compute; reflexivity.
Qed.


(** A plain request is one whose title and process name stand for
    themselves. *)
Lemma plain_is_literal (a : JS.Arguments) :
  plain a = true -> Request.literalTexts a = true.
Proof.
  unfold plain, Request.literalTexts. intros H.
  apply andb_true_iff in H; destruct H as [H _].
  apply andb_true_iff in H; destruct H as [H Hp].
  apply andb_true_iff in H; destruct H as [_ Ht].
  now rewrite (plainBytes_expansionFree _ Ht), (plainBytes_expansionFree _ Hp).
Qed.

(** What the variables of a script that parses were read from. *)
Lemma injected_fields (a : JS.Arguments) (inj : Injected) :
  injected a = Some inj ->
  literal (JS.psFilter a) = Some (var_psFilter inj)
  /\ literal (JS.psWindowTitle a) = Some (var_psWindowTitle inj)
  /\ literal (JS.psProcessName a) = Some (var_psProcessName inj).
Proof.
  unfold injected. destruct (splicesParse a); [|discriminate].
  destruct (literal (JS.psAllowFocus a)), (literal (JS.psRestore a)),
           (literal (JS.psFilter a)), (literal (JS.psWindowTitle a)),
           (literal (JS.psProcessName a));
    intros [= <-] || discriminate.
  repeat split.
Qed.



End SelectorPriorityClaim.

Section CaptureClaims.

Import Desktop PowerShell Script.

(** C5: for every window whose reported screen rectangle is (L,T,R,B),
    with the fixed padding p = 10, both capture paths work on the bounds
    with origin (max(0,L-p), max(0,T-p)), width (R+p)-max(0,L-p) and
    height (B+p)-max(0,T-p): the bitmap handed to PrintWindow has that
    width and height, and the fallback copies the screen from that origin
    in that size; the calls around them only show or focus windows. *)
Theorem C5_capture_bounds
        (a : JS.Arguments) (inj : Injected) (path : string) (target : Z) (h : Host) :
  injected a = Some inj ->
  let rc := Desktop.GetWindowRect target (readyToCapture target (desk h)) in
  let p := pad in
  let x := Z.max 0 (Left rc - p) in
  let y := Z.max 0 (Top rc - p) in
  let w := (Right rc + p) - Z.max 0 (Left rc - p) in
  let hg := (Bottom rc + p) - Z.max 0 (Top rc - p) in
  let saved :=
    match saveFault (manager (desk h)) with
    | None => [EvSave path w hg]
    | Some _ => []
    end in
  let showsOrFocuses c :=
    match c with
    | EvShowWindowAsync _ _ | EvSetForegroundWindow _ => True
    | _ => False
    end in
  p = 10
  /\ captureBounds rc = (x, y, w, hg)
  /\ exists before after,
       calls (snd (captureTarget inj path target h))
       = (calls h ++ before
          ++ [EvPrintWindow target w hg 2]
          ++ (if printWindowOk (manager (desk h)) target then saved
              else [EvSetForegroundWindow target; EvCopyFromScreen x y w hg] ++ saved)
          ++ after)%list
       /\ Forall showsOrFocuses before /\ Forall showsOrFocuses after.
Proof.
  intros Hinj. cbv zeta.
  destruct (flags_always_true a inj Hinj) as [Hf Hr].
  split; [reflexivity|]. split; [reflexivity|].
  rewrite (captureTarget_run inj path target h Hr Hf). cbn [snd calls fst].
  exists (if Desktop.IsIconic target (desk h) then [EvShowWindowAsync target 9] else []),
         ((if Desktop.IsIconic target (desk h) then [EvShowWindowAsync target 6] else [])
          ++ (if foreground (desk h) =? 0 then []
              else [EvSetForegroundWindow (foreground (desk h))]))%list.
  split; [reflexivity|].
  split.
  - destruct (Desktop.IsIconic target (desk h)); repeat constructor.
  - destruct (Desktop.IsIconic target (desk h)), (foreground (desk h) =? 0);
      repeat constructor.
Qed.

Lemma C5_capture_bounds_witness :
  captureBounds
    (Desktop.GetWindowRect 1002
       (readyToCapture 1002 (Samples.office (Samples.obliging false) [])))
  = (0, 0, 415, 614).
Proof.
  exact (proj1 (proj2
    (C5_capture_bounds Samples.calculatorPlain
       (mkInjected (VString "$false") (VString "$false") (VString "")
                   (VString "Calculator") (VString ""))
       "C:\\shots\\screenshot.png" 1002
       (boot (Samples.office (Samples.obliging false) []))
       eq_refl))).
Defined.

(** C6: for every request whose resolved window was minimized and whose
    restoreIfMinimized option is true, a capture path reports success and
    the script then asks for the window to be minimized again and, when a
    window had the focus before, for the focus to go back to it: the
    window ends minimized and that window focused whenever the window
    manager carries the requests out.  Whether it does or not, the run
    completes without throwing, the success line stays as it is, and the
    two requests add nothing to the error stream. *)
Theorem C6_restore_original_state
        (a : JS.Arguments) (inj : Injected) (path : string) (d : State)
        (target : Z) (h1 : Host) :
  JS.restoreIfMinimized a = true ->
  injected a = Some inj ->
  resolveTarget a inj (boot d) = (Normal target, h1) ->
  target <> 0 ->
  Desktop.IsIconic target d = true ->
  let prev := foreground d in
  let r := windowScript a path (boot d) in
  fst r = Normal tt
  /\ (out (snd r) = ["Window screenshot saved successfully (background)"]
      \/ out (snd r) = ["Window screenshot saved successfully (foreground fallback)"])
  /\ err (snd r)
     = (err h1 ++ match saveFault (manager d) with None => [] | Some e => [e] end)%list
  /\ (exists earlier,
        calls (snd r)
        = (earlier ++ [EvShowWindowAsync target 6]
           ++ (if prev =? 0 then [] else [EvSetForegroundWindow prev]))%list)
  /\ (minimizes (manager d) target = true ->
      Desktop.IsIconic target (desk (snd r)) = true)
  /\ (prev <> 0 -> foregrounds (manager d) prev = true ->
      foreground (desk (snd r)) = prev).
Proof.
  intros _ Hinj Hres Hnz Hmin. cbv zeta.
  destruct (flags_always_true a inj Hinj) as [Hf Hr].
  rewrite (windowScript_resolved a inj path target (boot d) h1 Hinj Hres Hnz).
  pose proof (resolveTarget_reads a inj (boot d)) as Hreads.
  rewrite Hres in Hreads. cbn [snd boot desk calls out] in Hreads.
  destruct Hreads as (Hd & Hc & Ho).
  rewrite (captureTarget_run inj path target h1 Hr Hf).
  cbn [fst snd desk calls out err]. rewrite Hd, Hc, Ho, Hmin.
  split; [reflexivity|]. split.
  { destruct (printWindowOk (manager d) target); [left | right]; reflexivity. }
  split; [reflexivity|].
  split.
  { eexists ([EvShowWindowAsync target 9] ++ [EvPrintWindow target _ _ 2]
             ++ (if printWindowOk (manager d) target then _ else _))%list.
    rewrite app_nil_l, <- !app_assoc. reflexivity. }
  split.
  - intros Hm.
    assert (Hdone : forall d2, manager d2 = manager d ->
                    Desktop.IsIconic target (show target 6 d2) = true).
    { intros d2 E. apply iconic_after_minimize. now rewrite E. }
    destruct (foreground d =? 0); rewrite ?iconic_activate; apply Hdone;
      destruct (printWindowOk (manager d) target);
      now autorewrite with setting.
  - intros Hp Hfg. apply Z.eqb_neq in Hp. rewrite Hp.
    apply foreground_activate.
    destruct (printWindowOk (manager d) target); now autorewrite with setting.
Qed.

Lemma C6_restore_original_state_witness :
  fst (windowScript Samples.notepadByHandleRestore "C:\\shots\\screenshot.png"
         (boot (Samples.office (Samples.obliging false) [1001])))
  = Normal tt.
Proof.
  exact (proj1
    (C6_restore_original_state Samples.notepadByHandleRestore
       (mkInjected (VString "$false") (VString "$true") (VString "")
                   (VString "") (VString ""))
       "C:\\shots\\screenshot.png"
       (Samples.office (Samples.obliging false) [1001])
       1001
       (boot (Samples.office (Samples.obliging false) [1001]))
       eq_refl eq_refl eq_refl
       ltac:(discriminate)
       eq_refl)).
Defined.

End CaptureClaims.

(* ------------------------------------------------------------------ *)
(** ** Selection by number and by process name *)

Section Selection.

Import Desktop PowerShell Script.


(** A request with a process name and nothing else reaches the title
    branch: the absent title is spliced as the word [undefined]. *)
Lemma process_alone_takes_title_branch (p : string) :
  branch (Request.onlyProcess p) = Some ByTitle.
Proof. reflexivity. Qed.


End Selection.

(* ------------------------------------------------------------------ *)
(** ** Where the handler departs from its own checks *)

Section Departures.

Import Desktop PowerShell Script.

(** C2 at [{ windowNumber: 0 }]: zero is falsy, so the handler never
    generates the window script whose number branch would reject it; it
    generates the all-monitors script and reports a saved screenshot. *)
Theorem C2_number_zero_captures_all_monitors :
  JS.wantsWindow Samples.numberZero = false
  /\ (forall env, Handler.psScript env Samples.numberZero
                  = allMonitorsScript (Handler.splicedPath env))
  /\ (let env := Samples.env (Samples.office (Samples.obliging true) []) in
      calls (snd (Handler.afterScript env Samples.numberZero))
      = [EvCopyFromScreen (-1280) 0 3200 1080;
         EvSave "C:\\shots\\screenshot.png" 3200 1080]
      /\ Handler.take_screenshot env Samples.numberZero = Samples.saved).
Proof.
  split; [reflexivity|]. split; [reflexivity|].
  split; vm_compute; reflexivity.
Qed.

(** C3 at a request by handle with allowFocus false whose background
    capture reports failure: the fallback runs all the same, the target
    is brought to the foreground, the screen is copied, and the handler
    reports a saved screenshot. *)
Theorem C3_fallback_runs_without_allowFocus :
  let env := Samples.env (Samples.office (Samples.obliging false) []) in
  let r := Handler.afterScript env Samples.calculatorByHandle in
  JS.allowFocus Samples.calculatorByHandle = false
  /\ fst r = Normal tt
  /\ calls (snd r)
     = [EvPrintWindow 1002 415 614 2;
        EvSetForegroundWindow 1002;
        EvCopyFromScreen 0 0 415 614;
        EvSave "C:\\shots\\screenshot.png" 415 614;
        EvSetForegroundWindow 1002]
  /\ out (snd r) = ["Window screenshot saved successfully (foreground fallback)"]
  /\ Handler.take_screenshot env Samples.calculatorByHandle = Samples.saved.
Proof. cbv zeta. repeat split; vm_compute; reflexivity. Qed.

(** C4 at a request by handle with restoreIfMinimized false whose window
    is minimized: the window is restored and captured, and the handler
    reports a saved screenshot. *)
Theorem C4_minimized_window_is_captured_anyway :
  let d := Samples.office (Samples.obliging true) [1001] in
  let env := Samples.env d in
  let r := Handler.afterScript env Samples.notepadByHandle in
  JS.restoreIfMinimized Samples.notepadByHandle = false
  /\ Desktop.IsIconic 1001 d = true
  /\ fst r = Normal tt
  /\ calls (snd r)
     = [EvShowWindowAsync 1001 9;
        EvPrintWindow 1001 820 620 2;
        EvSave "C:\\shots\\screenshot.png" 820 620;
        EvShowWindowAsync 1001 6;
        EvSetForegroundWindow 1002]
  /\ Handler.take_screenshot env Samples.notepadByHandle = Samples.saved.
Proof. cbv zeta. repeat split; vm_compute; reflexivity. Qed.

(** C7 at [{ processName: "notepad" }] on a desktop where Notepad is
    open: the script takes the title branch, the enumeration comes back
    empty, and the script throws for the title [undefined]; the handler
    answers with the failure flag and no window is captured.  With an
    empty title next to it the process branch does run, and throws as
    well. *)
Theorem C7_process_name_selects_no_window :
  let d := Samples.office (Samples.obliging true) [] in
  let env := Samples.env d in
  existsb (fun w => Text.includes (Text.toLower (Process w)) "notepad")
          (flat_map (listed "") (windows d)) = true
  /\ branch Samples.notepadProcess = Some ByTitle
  /\ fst (Handler.afterScript env Samples.notepadProcess)
     = Thrown "No window found with title containing: undefined"
  /\ calls (snd (Handler.afterScript env Samples.notepadProcess)) = []
  /\ (exists p, Handler.take_screenshot env Samples.notepadProcess
                = Handler.Fulfilled p
                /\ Handler.isError p = true)
  /\ branch Samples.notepadProcessEmptyTitle = Some ByProcess
  /\ fst (Handler.afterScript env Samples.notepadProcessEmptyTitle)
     = Thrown "No window found for process: notepad"
  /\ calls (snd (Handler.afterScript env Samples.notepadProcessEmptyTitle)) = [].
Proof.
  cbv zeta. repeat split; try (vm_compute; reflexivity).
  eexists. split; vm_compute; reflexivity.
Qed.

(** C10 at a request by handle with restoreIfMinimized true and
    allowFocus false whose window is minimized and whose background
    capture reports failure: the fallback runs, the request succeeds, and
    the window is minimized again and the focus given back. *)
Theorem C10_error_path_is_not_taken :
  let d := Samples.office (Samples.obliging false) [1001] in
  let env := Samples.env d in
  let r := Handler.afterScript env Samples.notepadByHandleRestore in
  JS.allowFocus Samples.notepadByHandleRestore = false
  /\ JS.restoreIfMinimized Samples.notepadByHandleRestore = true
  /\ Desktop.IsIconic 1001 d = true
  /\ fst r = Normal tt
  /\ calls (snd r)
     = [EvShowWindowAsync 1001 9;
        EvPrintWindow 1001 820 620 2;
        EvSetForegroundWindow 1001;
        EvCopyFromScreen 90 40 820 620;
        EvSave "C:\\shots\\screenshot.png" 820 620;
        EvShowWindowAsync 1001 6;
        EvSetForegroundWindow 1002]
  /\ Desktop.IsIconic 1001 (desk (snd r)) = true
  /\ foreground (desk (snd r)) = 1002
  /\ Handler.take_screenshot env Samples.notepadByHandleRestore = Samples.saved.
Proof. cbv zeta. repeat split; vm_compute; reflexivity. Qed.

End Departures.

(* ------------------------------------------------------------------ *)
(** ** Monitor mode *)

Section Monitors.

Import Desktop PowerShell Script Request.










(** The single-monitor script once a screen is selected. *)
Lemma monitorScript_selected (m path : string) (h : Host) (s : Screen) :
  monitorParses m = true ->
  selectMonitor m h = (Normal (Some s), h) ->
  monitorScript m path h
  = (Normal tt,
     mkHost (desk h)
       (calls h ++ EvCopyFromScreen (X s) (Y s) (Width s) (Height s)
        :: match saveFault (manager (desk h)) with
           | None => [EvSave path (Width s) (Height s)]
           | Some _ => []
           end)
       (out h ++ ["Screenshot of monitor " ++ m ++ " saved successfully"])
       (match saveFault (manager (desk h)) with
        | None => err h
        | Some e => err h ++ [e]
        end)).
Proof.
  intros Hp Hsel. unfold monitorScript. rewrite Hp. unfold bind at 1. rewrite Hsel.
  cbv beta iota zeta
    delta [bind CopyFromScreen Save WriteHost WriteError record desktop ret
           desk calls out err].
  destruct h as [d cs o e]. 
  destruct (saveFault (manager d)); rewrite <- ?app_assoc; reflexivity.
Qed.

End Monitors.

Section MonitorClaim.

Import Desktop PowerShell Script Request.


(** From 10^21 on a number is spliced in exponent form, which is no run
    of digits: the script refuses it as it refuses a word. *)
Lemma monitor_number_in_exponent_form :
  let env := Samples.env (Samples.office (Samples.obliging true) []) in
  fst (Handler.afterScript env (onlyMonitor (JS.MonitorNumber (10 ^ 21))))
  = Thrown "Invalid monitor parameter: 1e+21".
Proof. vm_compute. reflexivity. Qed.



End MonitorClaim.

(* ------------------------------------------------------------------ *)
(** ** The request boundary *)

Section Boundary.

Import Desktop PowerShell Script.

(** C9 at a request whose destination directory cannot be created:
    [fs.mkdir] is awaited before the [try] block, so its failure is not
    turned into a payload; the handler's promise rejects with it. *)
Theorem C9_mkdir_failure_escapes_the_handler :
  (forall d access join path enc e a,
     Handler.take_screenshot (Handler.mkEnv d (Some e) access join path enc) a
     = Handler.Rejected e)
  /\ Handler.take_screenshot
       (Samples.envNoMkdir (Samples.office (Samples.obliging true) []))
       JS.noArguments
     = Handler.Rejected Samples.eacces.
Proof. split; reflexivity. Qed.

(** Past [fs.mkdir] every outcome is a payload, and every payload other
    than the success message carries the failure flag. *)
Lemma failures_become_payloads (env : Handler.Env) (a : JS.Arguments) :
  Handler.mkdirError env = None ->
  exists p, Handler.take_screenshot env a = Handler.Fulfilled p
    /\ (Handler.isError p = true
        \/ p = Handler.mkPayload
                 ("Screenshot saved successfully to: " ++ Handler.successPath env a)
                 false
           /\ Handler.accessError env = None
           /\ fst (Handler.afterScript env a) = Normal tt).
Proof.
  intros Hmk. unfold Handler.take_screenshot, Handler.tryBlock,
    Handler.execAsync, Handler.afterScript. rewrite Hmk.
  destruct (Handler.psScript env a (boot (Handler.desktop0 env))) as [[[]|msg] h].
  - destruct (Handler.hasRealError _).
    + eexists; split; [reflexivity|]. now left.
    + destruct (Handler.accessError env).
      * eexists; split; [reflexivity|]. now left.
      * eexists; split; [reflexivity|]. right. repeat split.
  - eexists; split; [reflexivity|]. now left.
Qed.

(** The text of a failure payload carries the message of the error. *)
Lemma catch_text_includes (e : Handler.JsError) (m : string) :
  Handler.message e <> "" ->
  Text.includes (Handler.message e) m = true ->
  Text.includes (Handler.text (Handler.catchBlock e)) m = true.
Proof.
  intros Hne Hin. unfold Handler.catchBlock. cbn [Handler.text].
  destruct (Handler.message e =? "")%string eqn:E;
    [apply String.eqb_eq in E; contradiction|].
  destruct (Handler.stderr e =? "")%string, (Handler.stdout e =? "")%string;
    cbn [app Text.join];
    apply includes_app_r, includes_app_r;
    try apply includes_app_l; exact Hin.
Qed.

(** A script that throws is reported with what it threw. *)
Lemma thrown_message_reported (env : Handler.Env) (a : JS.Arguments)
      (msg : string) (h : Host) :
  Handler.mkdirError env = None ->
  Handler.psScript env a (boot (Handler.desktop0 env)) = (Thrown msg, h) ->
  exists p, Handler.take_screenshot env a = Handler.Fulfilled p
            /\ Handler.isError p = true
            /\ Text.includes (Handler.text p) msg = true.
Proof.
  intros Hmk Hrun.
  unfold Handler.take_screenshot, Handler.tryBlock, Handler.execAsync.
  rewrite Hmk, Hrun.
  eexists. split; [reflexivity|]. split; [reflexivity|].
  apply catch_text_includes; [discriminate|].
  cbn [Handler.message].
  apply includes_app_r, includes_app_r, includes_app_r.
  unfold Handler.lines. rewrite map_app. cbn [map].
  induction (map (fun s => s ++ Handler.newline) (err h)) as [|l ls IH].
  - cbn. apply includes_app_l, includes_refl.
  - cbn [app String.concat].
    destruct (ls ++ [(msg ++ Handler.newline)%string])%list eqn:El.
    + destruct ls; discriminate.
    + apply includes_app_r, includes_app_r. exact IH.
Qed.

(** A missing output file after a run that reported success is one of
    the failures that become a payload. *)
Lemma missing_file_becomes_payload :
  Handler.take_screenshot
    (Samples.envNoFile (Samples.office (Samples.obliging true) []))
    Samples.calculatorByHandle
  = Handler.Fulfilled
      (Handler.mkPayload
         "Failed to take screenshot: ENOENT: no such file or directory, access 'screenshots/screenshot.png'"
         true).
Proof. vm_compute. reflexivity. Qed.

End Boundary.

(* ------------------------------------------------------------------ *)
(** ** Injected texts and flags, for every request *)

Section Injection.

Import Desktop PowerShell Script.

(** Apostrophes in the filter, the title and the process name are
    doubled by [escPS] and read back by PowerShell: when the script
    parses, the three texts hold no typographic single quote, and the
    title and the process name no dollar sign or backtick, the three
    script variables hold exactly the texts of the request, the empty
    text for an absent one. *)
Theorem escaped_texts_arrive_unchanged (a : JS.Arguments) (inj : Injected) :
  injected a = Some inj ->
  Request.literalTexts a = true ->
  curlyFree (match JS.filter a with Some s => s | None => "" end) = true ->
  curlyFree (match JS.windowTitle a with Some s => s | None => "" end) = true ->
  curlyFree (match JS.processName a with Some s => s | None => "" end) = true ->
  var_psFilter inj = VString (match JS.filter a with Some s => s | None => "" end)
  /\ var_psWindowTitle inj
     = VString (match JS.windowTitle a with Some s => s | None => "" end)
  /\ var_psProcessName inj
     = VString (match JS.processName a with Some s => s | None => "" end).
Proof.
  intros Hinj _ Hf Ht Hp.
  destruct (injected_fields a inj Hinj) as (Ff & Ft & Fp).
  unfold JS.psFilter, JS.psWindowTitle, JS.psProcessName in *.
  rewrite (literal_escPS _ Hf) in Ff. rewrite (literal_escPS _ Ht) in Ft.
  rewrite (literal_escPS _ Hp) in Fp.
  repeat split; congruence.
Qed.

(** A typographic apostrophe is not doubled, and ends the literal. *)
Lemma typographic_apostrophe_is_not_escaped :
  let curly := String (ascii_of_nat 226) (String (ascii_of_nat 128)
                 (String (ascii_of_nat 153) EmptyString)) in
  literal ("'" ++ JS.escPS (Some ("Bob" ++ curly ++ "s")) ++ "'") = None
  /\ literal ("'" ++ JS.escPS (Some "Bob's") ++ "'") = Some (VString "Bob's").
Proof. split; reflexivity. Qed.

Lemma psScript_withFlags (env : Handler.Env) (a : JS.Arguments) (focus restore : bool) :
  Handler.psScript env (Request.withFlags a focus restore) = Handler.psScript env a.
Proof.
  unfold Handler.psScript.
  change (JS.wantsWindow (Request.withFlags a focus restore)) with (JS.wantsWindow a).
  change (JS.monitorOrAll (Request.withFlags a focus restore)) with (JS.monitorOrAll a).
  now rewrite flags_have_no_effect.
Qed.

(** Whatever values allowFocus and restoreIfMinimized take, the script
    does the same and the handler answers alike: with the same failure
    flag, and with the same payload when it is a success.  (The text of a
    failure quotes the command line, which encodes the script and with it
    the two flags; and a title or a process name with a dollar sign could
    name the two variables in a message, which is left out.) *)
Theorem flags_never_change_the_outcome
        (env : Handler.Env) (a : JS.Arguments) (focus restore : bool) :
  Request.literalTexts a = true ->
  Handler.afterScript env (Request.withFlags a focus restore)
  = Handler.afterScript env a
  /\ (Handler.mkdirError env = None ->
      exists p p',
        Handler.take_screenshot env a = Handler.Fulfilled p
        /\ Handler.take_screenshot env (Request.withFlags a focus restore)
           = Handler.Fulfilled p'
        /\ Handler.isError p' = Handler.isError p
        /\ (Handler.isError p = false -> p' = p)).
Proof.
  intros _. split.
  - unfold Handler.afterScript. now rewrite psScript_withFlags.
  - intros Hmk. unfold Handler.take_screenshot, Handler.tryBlock, Handler.execAsync.
    rewrite Hmk, psScript_withFlags.
    change (Handler.successPath env (Request.withFlags a focus restore))
      with (Handler.successPath env a).
    destruct (Handler.psScript env a (boot (Handler.desktop0 env))) as [[[]|msg] h].
    + destruct (Handler.hasRealError _).
      * eexists; eexists. repeat split; discriminate.
      * destruct (Handler.accessError env).
        -- eexists; eexists. repeat split; discriminate.
        -- eexists; eexists. repeat split.
    + eexists; eexists. repeat split; discriminate.
Qed.

(** The failure texts of two requests that differ in a flag differ. *)
Lemma command_line_shows_the_flags :
  let env := Samples.env (Samples.office (Samples.obliging true) []) in
  Handler.take_screenshot env (Request.withFlags Cases.titleNobody true true)
  <> Handler.take_screenshot env Cases.titleNobody.
Proof. vm_compute. discriminate. Qed.

End Injection.

(* ------------------------------------------------------------------ *)
(** ** What the enumeration lists *)

Section Enumeration.

Import Desktop PowerShell Script Reading.




(** Only a handle resolves a window.  Whatever windows are open, the
    number, title and process branches throw, because [Get-WindowsList]
    returns the empty array; a request that reaches none of the four
    branches resolves the null handle.  The desktop is not touched.  (The
    title and the process name are taken without dollar sign and
    backtick, which the messages of lines 313 and 319 would expand.) *)
Theorem only_a_handle_resolves
        (a : JS.Arguments) (inj : Injected) (h : Host) :
  branch a <> Some ByHandle ->
  Request.literalTexts a = true ->
  let r := resolveTarget a inj h in
  ((exists msg, fst r = Thrown msg) \/ fst r = Normal 0)
  /\ desk (snd r) = desk h /\ calls (snd r) = calls h.
Proof.
  intros Hb _. cbv zeta.
  split; [|split; apply (resolveTarget_reads a inj h)].
  unfold resolveTarget.
  destruct (branch a) as [[ | | | ]|]; [congruence | | | |].
  - rewrite byNumber_run. left. eexists. reflexivity.
  - rewrite byTitle_run. left. eexists. reflexivity.
  - rewrite byProcess_run. left. eexists. reflexivity.
  - right. reflexivity.
Qed.


End Enumeration.

(* ------------------------------------------------------------------ *)
(** ** Scripts that throw, and scripts that only copy the screen *)

Section AllOrNothing.

Import Desktop PowerShell Script Reading.

Lemma selectMonitor_reads (m : string) (h : Host) :
  let r := selectMonitor m h in
  desk (snd r) = desk h /\ calls (snd r) = calls h /\ out (snd r) = out h
  /\ (forall o, fst r = Normal o -> snd r = h).
Proof.
  cbv beta iota zeta delta [selectMonitor bind desktop ret throw WriteError].
  repeat (case_if; cbn [fst snd desk calls out]; try (repeat split; trivial; fail)).
  destruct (Text.castInt32 m); cbn [fst snd desk calls out].
  - case_if; repeat split.
  - repeat split. discriminate.
Qed.

Lemma allMonitorsScript_run (path : string) (h : Host) :
  exists cs o e,
    allMonitorsScript path h = (Normal tt, mkHost (desk h) (calls h ++ cs) o e)
    /\ Forall copiesOrSaves cs.
Proof.
  unfold allMonitorsScript.
  cbv beta iota zeta
    delta [bind desktop ret CopyFromScreen Save WriteHost WriteError record
           desk calls out err].
  destruct h as [d cs o e].
  destruct (VirtualScreen d) as [[[l t] w] hg].
  destruct (saveFault (manager d)); eexists; eexists; eexists;
    (split; [rewrite <- ?app_assoc; reflexivity|]); repeat constructor.
Qed.

Lemma monitorScript_run (m path : string) (h : Host) :
  (exists msg h1, monitorScript m path h = (Thrown msg, h1)
                  /\ desk h1 = desk h /\ calls h1 = calls h)
  \/ exists cs o e,
       monitorScript m path h = (Normal tt, mkHost (desk h) (calls h ++ cs) o e)
       /\ Forall copiesOrSaves cs.
Proof.
  unfold monitorScript. destruct (monitorParses m) eqn:Hp.
  2:{ left. eexists; eexists. repeat split. }
  pose proof (selectMonitor_reads m h) as Hr. cbv zeta in Hr.
  destruct (selectMonitor m h) as [[[s|]|msg] h1] eqn:Hsel;
    cbn [fst snd] in Hr; destruct Hr as (Hd & Hc & _ & Hn).
  - right. rewrite (Hn _ eq_refl) in Hsel.
    pose proof (monitorScript_selected m path h s Hp Hsel) as Hrun.
    unfold monitorScript in Hrun. rewrite Hp in Hrun. rewrite Hrun.
    eexists; eexists; eexists. split; [reflexivity|].
    destruct (saveFault (manager (desk h))); repeat constructor.
  - left. unfold bind. rewrite Hsel. eexists; eexists. repeat split; trivial.
  - left. unfold bind. rewrite Hsel. eexists; eexists. repeat split; trivial.
Qed.

(** Without a window selector the handler only copies the screen and
    saves: no window is shown, minimized or focused, and the desktop is
    as it was. *)
Theorem monitor_modes_leave_windows_alone (env : Handler.Env) (a : JS.Arguments) :
  JS.wantsWindow a = false ->
  desk (snd (Handler.afterScript env a)) = Handler.desktop0 env
  /\ Forall copiesOrSaves (calls (snd (Handler.afterScript env a))).
Proof.
  intros Hw. unfold Handler.afterScript, Handler.psScript. rewrite Hw.
  destruct (JS.isAll (JS.monitorOrAll a)).
  - destruct (allMonitorsScript_run (Handler.splicedPath env)
                (boot (Handler.desktop0 env))) as (cs & o & e & -> & Hcs).
    split; [reflexivity | exact Hcs].
  - destruct (monitorScript_run (JS.spliceMonitor (JS.monitorOrAll a))
                (Handler.splicedPath env) (boot (Handler.desktop0 env)))
      as [(msg & h1 & -> & Hd & Hc) | (cs & o & e & -> & Hcs)].
    + cbn [snd]. rewrite Hd, Hc. split; [reflexivity | constructor].
    + split; [reflexivity | exact Hcs].
Qed.

(** A script of plain texts that ends by a throw has touched nothing: no
    window was shown, focused or printed, nothing was copied or saved,
    and the desktop is as it was (every throw that can be reached stands
    before the capture); and the handler reports the thrown message in a
    payload with the failure flag. *)
Theorem thrown_script_has_touched_nothing
        (env : Handler.Env) (a : JS.Arguments) (msg : string) (h' : Host) :
  Handler.mkdirError env = None ->
  Request.plainScript a = true ->
  Handler.afterScript env a = (Thrown msg, h') ->
  calls h' = [] /\ desk h' = Handler.desktop0 env
  /\ exists p, Handler.take_screenshot env a = Handler.Fulfilled p
               /\ Handler.isError p = true
               /\ Text.includes (Handler.text p) msg = true.
Proof.
  intros Hmk _ Hrun.
  assert (Hshape : calls h' = [] /\ desk h' = Handler.desktop0 env).
  { revert Hrun. unfold Handler.afterScript, Handler.psScript.
    destruct (JS.wantsWindow a).
    - unfold windowScript. destruct (injected a) as [inj|] eqn:Hinj.
      2:{ intros [= <- <-]. auto. }
      unfold bind at 1.
      pose proof (resolveTarget_reads a inj (boot (Handler.desktop0 env))) as Hreads.
      pose proof (capture_never_throws a inj (Handler.splicedPath env)) as Hcap.
      destruct (resolveTarget a inj (boot (Handler.desktop0 env))) as [[t|m] h1];
        cbn [snd boot desk calls out] in Hreads;
        destruct Hreads as (Hd & Hc & Ho).
      + unfold bind, when. destruct (t =? 0).
        * unfold throw. intros [= <- <-]. auto.
        * unfold ret. intros Hrun.
          specialize (Hcap t h1 Hinj).
          rewrite Hrun in Hcap. discriminate.
      + intros [= <- <-]. auto.
    - destruct (JS.isAll (JS.monitorOrAll a)).
      + destruct (allMonitorsScript_run (Handler.splicedPath env)
                    (boot (Handler.desktop0 env))) as (cs & o & e & -> & _).
        discriminate.
      + destruct (monitorScript_run (JS.spliceMonitor (JS.monitorOrAll a))
                    (Handler.splicedPath env) (boot (Handler.desktop0 env)))
          as [(m & h1 & -> & Hd & Hc) | (cs & o & e & -> & _)]; [|discriminate].
        intros [= <- <-]. auto. }
  destruct Hshape as (Hc & Hd). repeat split; trivial.
  exact (thrown_message_reported env a msg h' Hmk Hrun).
Qed.

End AllOrNothing.

(* ------------------------------------------------------------------ *)
(** ** Handles *)

Section Handles.

Import Desktop PowerShell Script Reading.

Lemma like_star (t : string) : Text.like_pat "*" t = true.
Proof.
  induction t as [|c t IH]; [reflexivity|].
  change (Text.like_pat "*" (String c t))
    with (Text.like_pat "" (String c t) || Text.like_pat "*" t).
  rewrite IH. apply orb_true_r.
Qed.

Lemma toLower_app (a b : string) :
  Text.toLower (a ++ b) = Text.toLower a ++ Text.toLower b.
Proof. induction a as [|c a IH]; [reflexivity|]. cbn. now rewrite IH. Qed.

Lemma toLower_zeros (k : nat) : Text.toLower (ListWindows.zeros k) = ListWindows.zeros k.
Proof. induction k as [|k IH]; [reflexivity|]. cbn. now rewrite IH. Qed.

Lemma hex_lower_upper (u : Hexadecimal.uint) :
  Text.toLower (ListWindows.toUpper (HexadecimalString.NilEmpty.string_of_uint u))
  = HexadecimalString.NilEmpty.string_of_uint u.
Proof. induction u; cbn; [reflexivity | now rewrite IHu ..]. Qed.

Lemma zeros_digits (k : nat) (u : Hexadecimal.uint) :
  ListWindows.zeros k ++ HexadecimalString.NilEmpty.string_of_uint u
  = HexadecimalString.NilEmpty.string_of_uint (Nat.iter k Hexadecimal.D0 u).
Proof. induction k as [|k IH]; [reflexivity|]. cbn. now rewrite IH. Qed.

Lemma of_hex_leading_zeros (k : nat) (u : Hexadecimal.uint) :
  Pos.of_hex_uint (Nat.iter k Hexadecimal.D0 u) = Pos.of_hex_uint u.
Proof. induction k as [|k IH]; [reflexivity|]. cbn. exact IH. Qed.

Lemma leading_zeros_nonnil (k : nat) (u : Hexadecimal.uint) :
  u <> Hexadecimal.Nil -> Nat.iter k Hexadecimal.D0 u <> Hexadecimal.Nil.
Proof. destruct k; cbn; [trivial | discriminate]. Qed.

Lemma read_written_digits (v : Hexadecimal.uint) :
  v <> Hexadecimal.Nil ->
  HexadecimalString.NilZero.uint_of_string
    (HexadecimalString.NilEmpty.string_of_uint v) = Some v.
Proof.
  intros Hv.
  pose proof (HexadecimalString.NilEmpty.usu v) as E.
  destruct v; try congruence; exact E.
Qed.

Lemma to_hex_uint_nonnil (n : N) : N.to_hex_uint n <> Hexadecimal.Nil.
Proof.
  destruct n; cbn; [discriminate|].
  apply HexadecimalPos.Unsigned.to_uint_nonnil.
Qed.

Lemma readHex_handleText (h : Z) :
  0 <= h < 2 ^ 63 -> Text.readHex (ListWindows.handleText h) = Some h.
Proof.
  intros Hh. unfold ListWindows.handleText, ListWindows.X8.
  cbn [append Text.readHex].
  rewrite Z.mod_small by lia.
  set (u := N.to_hex_uint (Z.to_N h)).
  assert (Hu : u <> Hexadecimal.Nil) by apply to_hex_uint_nonnil.
  replace (HexadecimalString.NilZero.string_of_uint u)
    with (HexadecimalString.NilEmpty.string_of_uint u)
    by (destruct u; trivial; congruence).
  rewrite toLower_app, toLower_zeros, hex_lower_upper, zeros_digits.
  rewrite read_written_digits by (now apply leading_zeros_nonnil).
  cbv zeta.
  match goal with
  | |- context [Z.of_hex_uint ?x] => assert (E : Z.of_hex_uint x = h)
  end.
  { unfold Z.of_hex_uint. rewrite of_hex_leading_zeros.
    change (Pos.of_hex_uint u) with (N.of_hex_uint (N.to_hex_uint (Z.to_N h))).
    rewrite HexadecimalN.Unsigned.of_to. now rewrite Z2N.id by lia. }
  rewrite E.
  now replace (h <? 2 ^ 63) with true by (symmetry; apply Z.ltb_lt; lia).
Qed.

(** The handle text that list_windows prints for a window, given back as
    windowHandle, takes the handle branch and resolves to that window's
    handle. *)
Theorem printed_handle_reads_back (h : Z) (host : Host) :
  0 <= h < 2 ^ 63 ->
  branch (Cases.handleOnly (ListWindows.handleText h)) = Some ByHandle
  /\ byHandle (ListWindows.handleText h) host = (Normal h, host).
Proof.
  intros Hh. split; [reflexivity|].
  unfold byHandle.
  replace (Text.like (ListWindows.handleText h) "0x*") with true.
  - now rewrite readHex_handleText.
  - unfold Text.like, ListWindows.handleText. cbn [append].
    symmetry. apply like_star.
Qed.





End Handles.

(* ------------------------------------------------------------------ *)
(** ** list_windows *)

Section Listing.

Import Desktop PowerShell Script Reading.









(** A typographic apostrophe in the filter ends the literal: the script
    does not parse and list_windows answers with the failure flag. *)
Lemma typographic_filter_breaks_the_listing :
  let curly := String (ascii_of_nat 226) (String (ascii_of_nat 128)
                 (String (ascii_of_nat 153) EmptyString)) in
  Handler.isError
    (ListWindows.list_windows Cases.noZoom
       (Samples.env (Samples.office (Samples.obliging true) []))
       (ListWindows.mkArguments (Some ("Bob" ++ curly ++ "s")) None))
  = true.
Proof. vm_compute. reflexivity. Qed.

End Listing.

(* ------------------------------------------------------------------ *)
(** ** Output locations *)

Section Locations.

Import Reading.

Lemma replaceChar_removes (from to : ascii) (s : string) :
  from <> to -> hasChar from (Paths.replaceChar from to s) = false.
Proof.
  intros Hne. induction s as [|c s IH]; [reflexivity|].
  cbn. rewrite IH, orb_false_r.
  destruct (Ascii.eqb c from) eqn:E; [|exact E].
  apply Ascii.eqb_neq. congruence.
Qed.

(** What [toWindowsPath] returns never holds a forward slash. *)
Theorem toWindowsPath_has_no_slash (p : string) :
  hasChar "/" (Paths.toWindowsPath p) = false.
Proof. unfold Paths.toWindowsPath. apply replaceChar_removes. discriminate. Qed.

(** A path under [/mnt/<letter>/] becomes [<letter>:\] followed by the rest
    with every slash turned into a backslash. *)
Theorem toWindowsPath_drive (l : ascii) (rest : string) :
  Paths.isLowerLetter l = true ->
  Paths.toWindowsPath ("/mnt/" ++ String l (String "/" rest))
  = String l (":\" ++ Paths.replaceChar "/" "\" rest).
Proof.
  intros Hl. unfold Paths.toWindowsPath. cbn [append Paths.mntDrive].
  change ("/mnt/" =? "/mnt/")%string with true. rewrite Hl.
  cbn [andb Ascii.eqb Bool.eqb]. cbn [Paths.replaceChar append].
  destruct (Ascii.eqb l "/") eqn:E.
  - apply Ascii.eqb_eq in E. subst l. discriminate Hl.
  - reflexivity.
Qed.

(** A folder under [/mnt/] is used as it is: it is the directory to
    create, no function of node is consulted, and PowerShell is handed
    the converted folder, a backslash and the file name. *)
Theorem mnt_folder_location (node : Paths.Node) (folder filename : string) :
  Paths.startsWithMnt folder = true ->
  Paths.locate node (Some folder) filename
  = (folder, Paths.toWindowsPath folder ++ "\" ++ filename).
Proof.
  intros Hm. unfold Paths.locate, Paths.startsWithMnt in *.
  do 5 (destruct folder as [|? folder]; [discriminate Hm|];
        cbn [String.prefix] in Hm;
        match type of Hm with
        | context [ascii_dec ?x ?y] =>
            destruct (ascii_dec x y) as [<-|]; [|discriminate Hm]
        end).
  cbn. change (Paths.isLetter "/") with false. cbn. rewrite Hm. reflexivity.
Qed.

(** A drive root given without its closing slash is not recognised as a
    drive: PowerShell is handed [\mnt\<letter>\<file>]. *)
Theorem bare_drive_root_keeps_mnt (node : Paths.Node) (l : ascii) (filename : string) :
  snd (Paths.locate node (Some ("/mnt/" ++ String l EmptyString)) filename)
  = "\mnt\" ++ String (if Ascii.eqb l "/" then "\"%char else l) ("\" ++ filename).
Proof.
  unfold Paths.locate. cbn [JS.truthyText JS.spliceText append].
  change (negb ("/mnt/" ++ String l "" =? "")%string) with true.
  change (Paths.isWindowsFolder (String "/" (String "m" (String "n" (String "t"
            (String "/" (String l ""))))))) with false.
  change (Paths.startsWithMnt (String "/" (String "m" (String "n" (String "t"
            (String "/" (String l ""))))))) with true.
  cbv iota. cbn [snd]. reflexivity.
Qed.

(** Without a distribution name [toWindowsUNC] returns the Linux path
    unchanged; with one, the result starts with the share of that
    distribution and none of what follows it holds a forward slash. *)
Theorem toWindowsUNC_shape (distro p : string) :
  (distro = "" -> Paths.toWindowsUNC distro p = p)
  /\ (distro <> "" ->
      exists rest,
        Paths.toWindowsUNC distro p = "\\wsl$\" ++ distro ++ "\" ++ rest
        /\ hasChar "/" rest = false
        /\ String.length rest = String.length (Paths.dropLeadingSlash p)).
Proof.
  unfold Paths.toWindowsUNC. split.
  - intros ->. reflexivity.
  - intros Hd. apply String.eqb_neq in Hd. rewrite Hd.
    eexists. split; [reflexivity|]. split.
    + apply replaceChar_removes. discriminate.
    + induction (Paths.dropLeadingSlash p) as [|c s IH]; [reflexivity|].
      cbn. now rewrite IH.
Qed.

End Locations.

(* ------------------------------------------------------------------ *)
(** ** The bounded wait for a restore *)

Section Waiting.

Import Desktop PowerShell Script Reading.

Lemma not_iconic_without (h : Z) (l : list Z) :
  existsb (Z.eqb h) (without h l) = false.
Proof.
  induction l as [|x l IH]; [reflexivity|].
  unfold without in *. cbn [filter].
  destruct (x =? h) eqn:E; cbn [negb]; [exact IH|].
  cbn [existsb]. rewrite IH, orb_false_r.
  rewrite Z.eqb_sym. exact E.
Qed.

Lemma awaitRestore_done (h : Z) (n : nat) (d : State) :
  Desktop.IsIconic h d = false -> awaitRestore h n d = d.
Proof. intros H. destruct n; [reflexivity|]. cbn. now rewrite H. Qed.

Lemma awaitRestore_pending (h : Z) (n : nat) : forall (d : State) (due : nat),
  Desktop.IsIconic h d = true ->
  restoring d = Some (h, due) ->
  (0 < due)%nat ->
  Desktop.IsIconic h (awaitRestore h n d) = negb (due <=? 50 * n)%nat.
Proof.
  induction n as [|n IH]; intros d due Hic Hre Hdue.
  - cbn [awaitRestore]. rewrite Hic. symmetry. apply negb_true_iff.
    apply Nat.leb_gt. lia.
  - cbn [awaitRestore]. rewrite Hic. cbn [negb].
    unfold elapse at 1. rewrite Hre.
    destruct (due <=? 50)%nat eqn:E.
    + apply Nat.leb_le in E.
      rewrite awaitRestore_done
        by (unfold Desktop.IsIconic, setIconic; cbn [iconic];
            apply not_iconic_without).
      unfold Desktop.IsIconic, setIconic. cbn [iconic].
      rewrite not_iconic_without. symmetry. apply negb_false_iff.
      apply Nat.leb_le. lia.
    + apply Nat.leb_gt in E.
      rewrite (IH _ (due - 50)%nat); [| exact Hic | reflexivity | lia].
      f_equal. apply eq_true_iff_eq. rewrite !Nat.leb_le. lia.
Qed.

Lemma readyToCapture_rectangle
        (d : State) (target : Z) (ms : nat) (w : Window) :
  Desktop.IsIconic target d = true ->
  restoreDelay (manager d) target = Some ms ->
  find (fun x => hWnd x =? target) (windows d) = Some w ->
  Desktop.IsIconic target (readyToCapture target d) = negb (ms <=? 2000)%nat
  /\ Desktop.GetWindowRect target (readyToCapture target d)
     = if (ms <=? 2000)%nat then frame w else parked w.
Proof.
  intros Hic Hdelay Hfind.
  assert (Hstate : Desktop.IsIconic target (readyToCapture target d)
                   = negb (ms <=? 2000)%nat).
  { unfold readyToCapture. rewrite Hic. unfold show.
    change (9 =? 9) with true. cbv iota. rewrite Hic, Hdelay.
    destruct ms as [|ms].
    - rewrite awaitRestore_done;
        unfold Desktop.IsIconic, setIconic; cbn [iconic];
        apply not_iconic_without.
    - rewrite (awaitRestore_pending target 40 _ (S ms)); trivial; lia. }
  split; [exact Hstate|].
  unfold Desktop.GetWindowRect.
  destruct (readyToCapture_setting target d) as (Hw & _ & _).
  rewrite Hw, Hfind, Hstate. now destruct (ms <=? 2000)%nat.
Qed.

(** The poll waits at most 40 times 50 ms.  For a minimized window whose
    restore takes no more than 2000 ms, the restore request, the poll and
    GetWindowRect read the rectangle of the shown window; for a slower
    one the poll gives up without an error and the rectangle read is the
    one reported for the minimized window. *)
Theorem restore_is_awaited_for_two_seconds
        (h : Host) (target : Z) (ms : nat) (w : Window) :
  Desktop.IsIconic target (desk h) = true ->
  restoreDelay (manager (desk h)) target = Some ms ->
  find (fun x => hWnd x =? target) (windows (desk h)) = Some w ->
  fst ((ShowWindowAsync target 9 ;; pollRestored target 40 ;; GetWindowRect target) h)
  = Normal (if (ms <=? 2000)%nat then frame w else parked w).
Proof.
  intros Hic Hdelay Hfind.
  cbv beta iota zeta delta [bind ShowWindowAsync record change].
  rewrite pollRestored_run.
  cbv beta iota zeta delta [GetWindowRect bind desktop ret]. cbn [fst desk].
  rewrite <- (proj2 (readyToCapture_rectangle _ _ _ _ Hic Hdelay Hfind)).
  unfold readyToCapture. now rewrite Hic.
Qed.

End Waiting.

(* ------------------------------------------------------------------ *)
(** ** Failures the handler cannot see *)

Section Sniffing.

Import Desktop PowerShell Script Reading.

(** A fault of Save does not stop the script; the handler judges it by
    its words alone.  When the text written to the error stream carries
    one of the markers the handler looks for, the answer is an error that
    quotes it; when it carries none and a file answers [fs.access], the
    answer is the success message, although the run wrote no file. *)
Theorem save_fault_is_judged_by_its_words
        (env : Handler.Env) (a : JS.Arguments) (fault : string) :
  Handler.mkdirError env = None ->
  Handler.accessError env = None ->
  saveFault (manager (Handler.desktop0 env)) = Some fault ->
  fst (Handler.afterScript env a) = Normal tt ->
  existsb isSave (calls (snd (Handler.afterScript env a))) = false
  /\ exists p,
       Handler.take_screenshot env a = Handler.Fulfilled p
       /\ Handler.isError p = Handler.hasRealError (fault ++ Handler.newline)
       /\ (Handler.hasRealError (fault ++ Handler.newline) = true ->
           Text.includes (Handler.text p) fault = true)
       /\ (Handler.hasRealError (fault ++ Handler.newline) = false ->
           Handler.text p
           = "Screenshot saved successfully to: " ++ Handler.successPath env a).
Proof.
  intros Hmk Hacc Hfault Hok.
  assert (Hrun : exists d cs o,
            Handler.afterScript env a = (Normal tt, mkHost d cs o [fault])
            /\ existsb isSave cs = false).
  { revert Hok. unfold Handler.afterScript, Handler.psScript.
    destruct (JS.wantsWindow a).
    - unfold windowScript. destruct (injected a) as [inj|] eqn:Hinj; [|discriminate].
      unfold bind.
      pose proof (resolveTarget_normal a inj (boot (Handler.desktop0 env))) as Hn.
      destruct (flags_always_true a inj Hinj) as [Hf Hr].
      destruct (resolveTarget a inj (boot (Handler.desktop0 env))) as [[t|m] h1];
        [|discriminate].
      unfold when. destruct (t =? 0) eqn:Ht; [discriminate|].
      apply Z.eqb_neq in Ht. rewrite (proj2 (Hn h1 t eq_refl Ht)).
      unfold ret. rewrite (captureTarget_run _ _ _ _ Hr Hf).
      cbn [fst snd desk calls out err boot]. intros _.
      rewrite Hfault.
      eexists; eexists; eexists. split; [reflexivity|].
      destruct (Desktop.IsIconic t (Handler.desktop0 env)),
               (printWindowOk (manager (Handler.desktop0 env)) t),
               (foreground (Handler.desktop0 env) =? 0); reflexivity.
    - destruct (JS.isAll (JS.monitorOrAll a)).
      + intros _. unfold allMonitorsScript.
        cbv beta iota zeta
          delta [bind desktop ret CopyFromScreen Save WriteHost WriteError record
                 desk calls out err boot].
        destruct (VirtualScreen (Handler.desktop0 env)) as [[[l t] w] hg].
        rewrite Hfault. eexists; eexists; eexists. split; reflexivity.
      + destruct (monitorParses (JS.spliceMonitor (JS.monitorOrAll a))) eqn:Hp.
        2:{ unfold monitorScript. rewrite Hp. discriminate. }
        destruct (selectMonitor (JS.spliceMonitor (JS.monitorOrAll a))
                    (boot (Handler.desktop0 env))) as [[[s|]|m] h1] eqn:Hsel.
        * pose proof (selectMonitor_reads (JS.spliceMonitor (JS.monitorOrAll a))
                        (boot (Handler.desktop0 env))) as Hr.
          cbv zeta in Hr. rewrite Hsel in Hr. cbn [fst snd] in Hr.
          destruct Hr as (_ & _ & _ & Hn). rewrite (Hn _ eq_refl) in Hsel.
          rewrite (monitorScript_selected _ _ _ _ Hp Hsel).
          cbn [boot desk calls out err app fst snd]. rewrite Hfault. intros _.
          eexists; eexists; eexists. split; reflexivity.
        * unfold monitorScript. rewrite Hp. unfold bind. rewrite Hsel. discriminate.
        * unfold monitorScript. rewrite Hp. unfold bind. rewrite Hsel. discriminate. }
  destruct Hrun as (d & cs & o & Hrun & Hcs).
  split; [rewrite Hrun; exact Hcs|].
  unfold Handler.take_screenshot, Handler.tryBlock, Handler.execAsync.
  unfold Handler.afterScript in Hrun. rewrite Hmk, Hrun. cbn [err].
  replace (Handler.lines [fault]) with (fault ++ Handler.newline) by reflexivity.
  destruct (Handler.hasRealError (fault ++ Handler.newline)) eqn:Hreal.
  - eexists. split; [reflexivity|]. split; [reflexivity|].
    split; [intros _ | discriminate].
    apply catch_text_includes; cbn [Handler.message].
    + unfold Handler.hasRealError in Hreal.
      apply andb_true_iff in Hreal. destruct Hreal as [Hne _].
      apply negb_true_iff, String.eqb_neq in Hne. exact Hne.
    + apply includes_app_l, includes_refl.
  - rewrite Hacc. eexists. split; [reflexivity|]. split; [reflexivity|].
    split; [discriminate | reflexivity].
Qed.


End Sniffing.

(* ------------------------------------------------------------------ *)
(** ** Windows folders and monitor names *)

Section Naming.

Import Desktop PowerShell Script Reading.

Lemma replaceChar_same (c : ascii) (s : string) : Paths.replaceChar c c s = s.
Proof.
  induction s as [|x s IH]; [reflexivity|]. cbn. rewrite IH.
  destruct (Ascii.eqb x c) eqn:E; [|reflexivity].
  apply Ascii.eqb_eq in E. now subst.
Qed.

(** A folder that starts with a drive letter, a colon and two
    backslashes is taken for a Windows folder: the directory created is
    [/mnt/], the letter in lower case and the rest of the folder with
    every backslash turned into a slash, and PowerShell is handed
    [path.join] of the folder and the file name as it comes. *)
Theorem windows_folder_is_mounted
        (node : Paths.Node) (l : ascii) (rest filename : string) :
  Paths.isLetter l = true ->
  let folder := String l (":\\" ++ rest) in
  Paths.locate node (Some folder) filename
  = ("/mnt/" ++ String (Text.lowerChar l) ("//" ++ Paths.replaceChar "\" "/" rest),
     Paths.path_join node [folder; filename])
  /\ hasChar "\" (fst (Paths.locate node (Some folder) filename)) = false.
Proof.
  intros Hl folder.
  assert (E : Paths.locate node (Some folder) filename
              = ("/mnt/" ++ String (Text.lowerChar l)
                                   ("//" ++ Paths.replaceChar "\" "/" rest),
                 Paths.path_join node [folder; filename])).
  { unfold Paths.locate, folder. cbn [JS.truthyText JS.spliceText append].
    change (negb (String l (String ":" (String "\" (String "\" rest))) =? "")%string)
      with true.
    cbv iota. unfold Paths.isWindowsFolder. rewrite Hl.
    cbn [andb Ascii.eqb Bool.eqb]. rewrite replaceChar_same.
    unfold Paths.mountDrive. cbn [append Paths.replaceChar Ascii.eqb Bool.eqb].
    f_equal. do 5 f_equal.
    destruct (Ascii.eqb (Text.lowerChar l) "\") eqn:E; [|reflexivity].
    exfalso. apply Ascii.eqb_eq in E. revert Hl E.
    unfold Paths.isLetter, Text.lowerChar.
    destruct l as [[] [] [] [] [] [] [] []]; vm_compute; congruence. }
  split; [exact E|].
  rewrite E. cbn [fst append hasChar Ascii.eqb Bool.eqb orb].
  destruct (Ascii.eqb (Text.lowerChar l) "\") eqn:El.
  - exfalso. apply Ascii.eqb_eq in El. revert Hl El.
    unfold Paths.isLetter, Text.lowerChar.
    destruct l as [[] [] [] [] [] [] [] []]; vm_compute; congruence.
  - apply replaceChar_removes. discriminate.
Qed.

(** With a single backslash after the colon the folder is not taken for
    a Windows folder: it goes to [path.resolve] like a relative Linux
    path, and the directory created is whatever that returns. *)
Theorem drive_folder_needs_two_backslashes
        (node : Paths.Node) (l : ascii) (rest filename : string) :
  String.prefix "\" rest = false ->
  fst (Paths.locate node (Some (String l (":\" ++ rest))) filename)
  = Paths.path_resolve node [String l (":\" ++ rest)].
Proof.
  intros Hrest. unfold Paths.locate. cbn [JS.truthyText JS.spliceText append].
  change (negb (String l (String ":" (String "\" rest)) =? "")%string) with true.
  cbv iota.
  assert (Hw : Paths.isWindowsFolder (String l (String ":" (String "\" rest))) = false).
  { unfold Paths.isWindowsFolder. destruct rest as [|c rest]; [reflexivity|].
    cbn [String.prefix] in Hrest.
    destruct (Ascii.eqb c "\") eqn:E.
    - apply Ascii.eqb_eq in E. subst c.
      destruct (ascii_dec "\" "\"); [|congruence].
      now destruct rest.
    - now rewrite !andb_false_r. }
  assert (Hm : Paths.startsWithMnt (String l (String ":" (String "\" rest))) = false).
  { unfold Paths.startsWithMnt. cbn [String.prefix].
    destruct (ascii_dec "/" l); [|reflexivity].
    destruct (ascii_dec "m" ":"); [discriminate | reflexivity]. }
  rewrite Hw, Hm. reflexivity.
Qed.





(** A line feed after the digits does not stop [^\d+$] from matching:
    the text selects the monitor as the digits alone do. *)
Lemma digits_and_line_feed_select_a_monitor :
  let env := Samples.env (Samples.office (Samples.obliging true) []) in
  calls (snd (Handler.afterScript env
                (Request.onlyMonitor
                   (JS.MonitorText (String "1" (String (ascii_of_nat 10) ""))))))
  = calls (snd (Handler.afterScript env Samples.firstMonitor)).
Proof. vm_compute. reflexivity. Qed.

End Naming.

(* ------------------------------------------------------------------ *)
(** ** The theorems on the sample desktop *)

Section Instances.

Import Desktop PowerShell Script Reading.

Lemma escaped_texts_arrive_unchanged_witness :
  var_psFilter
    (mkInjected (VString "$false") (VString "$false") (VString "Bob's")
                (VString "") (VString ""))
  = VString "Bob's".
Proof.
  refine (proj1 (escaped_texts_arrive_unchanged Cases.filterWithApostrophe
                   (mkInjected (VString "$false") (VString "$false") (VString "Bob's")
                               (VString "") (VString ""))
                   _ _ _ _ _)); reflexivity.
Defined.

Lemma flags_never_change_the_outcome_witness :
  exists p p',
    Handler.take_screenshot
      (Samples.env (Samples.office (Samples.obliging false) []))
      Samples.calculatorByHandle
    = Handler.Fulfilled p
    /\ Handler.take_screenshot
         (Samples.env (Samples.office (Samples.obliging false) []))
         (Request.withFlags Samples.calculatorByHandle true true)
       = Handler.Fulfilled p'
    /\ Handler.isError p' = Handler.isError p
    /\ (Handler.isError p = false -> p' = p).
Proof.
  refine (proj2 (flags_never_change_the_outcome
                   (Samples.env (Samples.office (Samples.obliging false) []))
                   Samples.calculatorByHandle true true _) _);
    reflexivity.
Defined.

Lemma only_a_handle_resolves_witness :
  (exists msg,
     fst (resolveTarget Samples.calculatorPlain
            (mkInjected (VString "$false") (VString "$false") (VString "")
                        (VString "Calculator") (VString ""))
            (boot (Samples.office (Samples.obliging true) [])))
     = Thrown msg)
  \/ fst (resolveTarget Samples.calculatorPlain
            (mkInjected (VString "$false") (VString "$false") (VString "")
                        (VString "Calculator") (VString ""))
            (boot (Samples.office (Samples.obliging true) [])))
     = Normal 0.
Proof.
  refine (proj1 (only_a_handle_resolves Samples.calculatorPlain
                   (mkInjected (VString "$false") (VString "$false") (VString "")
                               (VString "Calculator") (VString ""))
                   (boot (Samples.office (Samples.obliging true) [])) _ _)).
  - vm_compute. discriminate.
  - reflexivity.
Defined.


Lemma monitor_modes_leave_windows_alone_witness :
  desk (snd (Handler.afterScript
               (Samples.env (Samples.office (Samples.obliging true) [1001]))
               Samples.firstMonitor))
  = Samples.office (Samples.obliging true) [1001]
  /\ Forall copiesOrSaves
       (calls (snd (Handler.afterScript
                      (Samples.env (Samples.office (Samples.obliging true) [1001]))
                      Samples.firstMonitor))).
Proof.
  refine (monitor_modes_leave_windows_alone
            (Samples.env (Samples.office (Samples.obliging true) [1001]))
            Samples.firstMonitor _).
  reflexivity.
Defined.

Lemma thrown_script_has_touched_nothing_witness :
  exists p,
    Handler.take_screenshot
      (Samples.env (Samples.office (Samples.obliging true) [])) Cases.titleNobody
    = Handler.Fulfilled p
    /\ Handler.isError p = true
    /\ Text.includes (Handler.text p) "No window found with title containing: Nobody"
       = true.
Proof.
  refine (proj2 (proj2
    (thrown_script_has_touched_nothing
       (Samples.env (Samples.office (Samples.obliging true) [])) Cases.titleNobody
       "No window found with title containing: Nobody"
       (boot (Samples.office (Samples.obliging true) [])) _ _ _))).
  - reflexivity.
  - reflexivity.
  - vm_compute. reflexivity.
Defined.

Lemma printed_handle_reads_back_witness :
  byHandle (ListWindows.handleText 1002)
           (boot (Samples.office (Samples.obliging true) []))
  = (Normal 1002, boot (Samples.office (Samples.obliging true) [])).
Proof.
  refine (proj2 (printed_handle_reads_back 1002 _ _)).
  split; [lia | reflexivity].
Defined.




Lemma toWindowsPath_drive_witness :
  Paths.toWindowsPath "/mnt/c/Users/me/shots" = "c:\Users\me\shots".
Proof.
  refine (toWindowsPath_drive "c" "Users/me/shots" _).
  reflexivity.
Defined.

Lemma mnt_folder_location_witness :
  Paths.locate Cases.node (Some "/mnt/c/shots") "a.png"
  = ("/mnt/c/shots", "c:\shots\a.png").
Proof.
  refine (mnt_folder_location Cases.node "/mnt/c/shots" "a.png" _).
  reflexivity.
Defined.

Lemma toWindowsUNC_shape_witness :
  exists rest,
    Paths.toWindowsUNC "Ubuntu" "/home/me/shots/a.png"
    = "\\wsl$\" ++ "Ubuntu" ++ "\" ++ rest
    /\ hasChar "/" rest = false
    /\ String.length rest = String.length (Paths.dropLeadingSlash "/home/me/shots/a.png").
Proof.
  refine (proj2 (toWindowsUNC_shape "Ubuntu" "/home/me/shots/a.png") _).
  discriminate.
Defined.

Lemma restore_is_awaited_for_two_seconds_witness :
  fst ((ShowWindowAsync 1001 9 ;; pollRestored 1001 40 ;; GetWindowRect 1001)
         (boot (Samples.office (Cases.slow 2000) [1001])))
  = Normal (frame Samples.editor)
  /\ fst ((ShowWindowAsync 1001 9 ;; pollRestored 1001 40 ;; GetWindowRect 1001)
            (boot (Samples.office (Cases.slow 2001) [1001])))
     = Normal (parked Samples.editor).
Proof.
  split.
  - refine (restore_is_awaited_for_two_seconds
              (boot (Samples.office (Cases.slow 2000) [1001])) 1001 2000
              Samples.editor _ _ _); reflexivity.
  - refine (restore_is_awaited_for_two_seconds
              (boot (Samples.office (Cases.slow 2001) [1001])) 1001 2001
              Samples.editor _ _ _); reflexivity.
Defined.

Lemma save_fault_is_judged_by_its_words_witness :
  existsb isSave
    (calls (snd (Handler.afterScript
                   (Samples.env (Samples.office (Cases.quietFault true) []))
                   Samples.calculatorByHandle)))
  = false.
Proof.
  refine (proj1 (save_fault_is_judged_by_its_words
                   (Samples.env (Samples.office (Cases.quietFault true) []))
                   Samples.calculatorByHandle "the disk is full" _ _ _ _)).
  - reflexivity.
  - reflexivity.
  - reflexivity.
  - vm_compute. reflexivity.
Defined.


Lemma failures_become_payloads_witness :
  exists p,
    Handler.take_screenshot
      (Samples.envNoFile (Samples.office (Samples.obliging true) []))
      Samples.calculatorByHandle
    = Handler.Fulfilled p
    /\ (Handler.isError p = true
        \/ p = Handler.mkPayload
                 ("Screenshot saved successfully to: "
                  ++ Handler.successPath
                       (Samples.envNoFile (Samples.office (Samples.obliging true) []))
                       Samples.calculatorByHandle)
                 false
           /\ Handler.accessError
                (Samples.envNoFile (Samples.office (Samples.obliging true) [])) = None
           /\ fst (Handler.afterScript
                     (Samples.envNoFile (Samples.office (Samples.obliging true) []))
                     Samples.calculatorByHandle) = Normal tt).
Proof.
  refine (failures_become_payloads
            (Samples.envNoFile (Samples.office (Samples.obliging true) []))
            Samples.calculatorByHandle _).
  reflexivity.
Defined.


Lemma windows_folder_is_mounted_witness :
  Paths.locate Cases.node (Some "C:\\shots") "a.png"
  = ("/mnt/c//shots", "C:\\shots/a.png").
Proof.
  refine (proj1 (windows_folder_is_mounted Cases.node "C" "shots" "a.png" _)).
  reflexivity.
Defined.

Lemma drive_folder_needs_two_backslashes_witness :
  fst (Paths.locate Cases.node (Some "C:\shots") "a.png")
  = "/home/me/project/C:\shots".
Proof.
  refine (drive_folder_needs_two_backslashes Cases.node "C" "shots" "a.png" _).
  reflexivity.
Defined.


End Instances.
